(** * Order management core of the Binance binding (OMS/binance_oms.py)

    A shallow embedding of [class Binance(OMS)]: the precision rounding of
    [place_futures_order], the spot and futures order paths, the batch
    operation [iterate_orders_df], [change_leverage] and the position sweep
    [close_futures_positions].

    Numbers.  The source computes on Python [float]s.  They are modelled as
    exact rationals ([Q]): [//] is the floor of the exact quotient, [round]
    is round-half-to-even on the exact value and [math.log10] is the real
    logarithm.  Numeric results are therefore compared with [==] ([Qeq]).
    The inputs at which a property is shown to fail are dyadic rationals on
    which the IEEE-754 double computation is exact as well.

    Effects.  [self] and the exchange behind [self.client] are threaded as an
    explicit state; a Python exception is a [Raise] result, and
    [try ... except BinanceAPIException] is [try_api].  The notifier and the
    gateway are taken to raise nothing but [BinanceAPIException]. *)

From Stdlib Require Import ZArith QArith Qround Qpower Qabs.
From Stdlib Require Import List String Ascii Bool Lia.
Import ListNotations.

Local Open Scope string_scope.
Local Open Scope Q_scope.

(** ** Python exceptions and results *)

Inductive exn : Type :=
| BinanceAPIException (str_e : string)   (* carries [str(e)] *)
| ValueError (msg : string)
| ZeroDivisionError (msg : string).

Inductive result (A : Type) : Type :=
| Ret (a : A)
| Raise (e : exn).

Arguments Ret {A} a.
Arguments Raise {A} e.

Definition rbind {A B : Type} (r : result A) (k : A -> result B) : result B :=
  match r with
  | Ret a => k a
  | Raise e => Raise e
  end.

(** ** Float arithmetic, on exact rationals *)

Module PyFloat.

(** [bool(x)] for a float: false exactly on zero. *)
Definition truthy (x : Q) : bool := negb (Qeq_bool x 0).

(** [bool(x)] for an [Optional[float]]: [None] and [0.0] are falsy. *)
Definition truthy_opt (x : option Q) : bool :=
  match x with
  | Some v => truthy v
  | None => false
  end.

(** The float behind a truthy [Optional[float]]. *)
Definition value (x : option Q) : Q :=
  match x with
  | Some v => v
  | None => 0
  end.

(** [a // b] *)
Definition floordiv (a b : Q) : result Q :=
  if Qeq_bool b 0 then Raise (ZeroDivisionError "float floor division by zero")
  else Ret (inject_Z (Qfloor (a / b))).

(** [a / b] *)
Definition truediv (a b : Q) : result Q :=
  if Qeq_bool b 0 then Raise (ZeroDivisionError "float division by zero")
  else Ret (a / b).

(** [round(x)]: nearest integer, ties to the even one. *)
Definition round_half_even (x : Q) : Z :=
  let f := Qfloor x in
  match Qcompare (x - inject_Z f) (1 # 2) with
  | Lt => f
  | Gt => (f + 1)%Z
  | Eq => if Z.even f then f else (f + 1)%Z
  end.

Definition pow10 (n : Z) : Q := 10 ^ n.

(** [round(x, ndigits)]: [ndigits] may be negative. *)
Definition round_ndigits (x : Q) (ndigits : Z) : Q :=
  inject_Z (round_half_even (x * pow10 ndigits)) / pow10 ndigits.

(** The least [k], searching upwards from [k], with [x2 < 10^(2k+1)]. *)
Fixpoint log10_search (fuel : nat) (k : Z) (x2 : Q) : Z :=
  match fuel with
  | O => k
  | S fuel' =>
      if Qle_bool (pow10 (2 * k + 1)) x2 then log10_search fuel' (k + 1)%Z x2
      else k
  end.

(** A bound on [|log10 x|] for [x = n/d > 0]. *)
Definition log10_bound (x : Q) : Z :=
  (Z.log2 (Qnum x) + Z.log2 (Zpos (Qden x)) + 1)%Z.

(** [round(math.log10(x))] for [x > 0]: the integer [k] nearest to the real
    logarithm, that is the one with [10^(2k-1) < x^2 < 10^(2k+1)] (a rational
    [x] never has its logarithm half-way between two integers). *)
Definition nearest_log10 (x : Q) : Z :=
  let b := log10_bound x in
  log10_search (Z.to_nat (2 * b + 1)) (- b)%Z (x * x).

(** [round(math.log10(x))]; [math.log10] raises on [x <= 0]. *)
Definition round_log10 (x : Q) : result Z :=
  if Qle_bool x 0 then Raise (ValueError "math domain error")
  else Ret (nearest_log10 x).

End PyFloat.

(** ** PrecisionResolver: lines 94 and 96 of [place_futures_order]

    [round(value // step * step, int(-1 * round(math.log10(step))))];
    the first argument is evaluated before the second. *)
Definition round_to_precision (value step : Q) : result Q :=
  rbind (PyFloat.floordiv value step) (fun n =>
  rbind (PyFloat.round_log10 step) (fun l =>
  Ret (PyFloat.round_ndigits (n * step) (-1 * l)%Z))).

(** [if price: price = round(...)], on an [Optional[float]]. *)
Definition round_price (price : option Q) (tick_size : Q) : result (option Q) :=
  match price with
  | Some p =>
      if PyFloat.truthy p
      then rbind (round_to_precision p tick_size) (fun p' => Ret (Some p'))
      else Ret price
  | None => Ret None
  end.

(** ** Strings *)

Module PyStr.

Definition upper_ascii (c : ascii) : ascii :=
  let n := nat_of_ascii c in
  if andb (Nat.leb 97 n) (Nat.leb n 122) then ascii_of_nat (n - 32) else c.

(** [s.upper()] (on ASCII text, which is what symbols and sides are). *)
Fixpoint upper (s : string) : string :=
  match s with
  | EmptyString => EmptyString
  | String c s' => String (upper_ascii c) (upper s')
  end.

(** [needle in hay] *)
Fixpoint contains (needle hay : string) : bool :=
  if String.prefix needle hay then true
  else match hay with
       | EmptyString => false
       | String _ hay' => contains needle hay'
       end.

End PyStr.

(** ** Data model *)

(** A JSON object returned by the exchange (an order confirmation, a leverage
    response); the code never looks inside, it only stores and reports it. *)
Definition json : Type := list (string * string).

(** The keyword arguments of [create_order] / [futures_create_order].
    [p_price] is [None] when the key is absent and [Some None] when the key
    is present with the value [None]. *)
Record OrderParams : Type := {
  p_symbol : string;
  p_side : string;
  p_type : string;
  p_quantity : Q;
  p_price : option (option Q);
  p_timeInForce : option string;
  p_reduceOnly : option bool
}.

(** An entry of [futures_exchange_info()['symbols']], with the two filters
    the code reads already converted by [float]. *)
Record SymbolInfo : Type := {
  info_symbol : string;
  stepSize : Q;
  tickSize : Q
}.

(** An entry of [futures_account()['positions']]. *)
Record Position : Type := {
  pos_symbol : string;
  positionAmt : Q
}.

(** The dictionaries appended to [self.failed_orders]: [place_order] uses the
    key ['size'], [place_futures_order] the key ['quantity']. *)
Inductive failed_order : Type :=
| FailedOrder (symbol side : string) (size price : Q) (error : string)
| FailedFuturesOrder (symbol side : string) (quantity : Q) (price : option Q)
                     (error : string).

(** The dictionaries of [failed_closes] and [unclosable_positions]. *)
Record failed_close : Type := {
  fc_symbol : string;
  fc_error : string
}.

Record unclosable : Type := {
  u_symbol : string;
  u_notional : Q;
  u_error : string
}.

(** The texts handed to [self.telegram.send_telegram_message], one constructor
    per f-string, carrying the interpolated values. *)
Inductive message : Type :=
| MsgOrderPlaced (order : json)
| MsgOrderFailed (symbol side str_e : string)
| MsgFuturesOrderPlaced (order : json)
| MsgFuturesOrderFailed (symbol side str_e : string)
| MsgLeverageChanged (symbol : string) (leverage : Z) (response : json)
| MsgLeverageFailed (symbol : string) (leverage : Z) (str_e : string)
| MsgClosedSmall (symbol : string) (order : json)
| MsgClosed (symbol : string) (order : json)
| MsgUnclosable (symbol : string) (notional : Q)
| MsgCloseFailed (symbol str_e : string)
| MsgUnclosableSummary (positions : list unclosable)
| MsgFetchPositionsFailed (str_e : string).

(** ** The exchange gateway, [self.client]

    Each operation either returns or raises [BinanceAPIException]; the
    exchange has a state of its own ([World]) that a call may change. *)
Inductive reply (A : Type) : Type :=
| Ok (a : A)
| ApiError (str_e : string).

Arguments Ok {A} a.
Arguments ApiError {A} str_e.

Record Client (World : Type) : Type := {
  create_order : OrderParams -> World -> reply json * World;
  futures_create_order : OrderParams -> World -> reply json * World;
  futures_exchange_info : World -> reply (list SymbolInfo) * World;
  futures_mark_price : string -> World -> reply Q * World;
  futures_account : World -> reply (list Position) * World;
  futures_change_leverage : string -> Z -> World -> reply json * World
}.

Arguments create_order {World} _ _ _.
Arguments futures_create_order {World} _ _ _.
Arguments futures_exchange_info {World} _ _.
Arguments futures_mark_price {World} _ _ _.
Arguments futures_account {World} _ _.
Arguments futures_change_leverage {World} _ _ _ _.

(** The gateway calls issued so far, in order. *)
Inductive call : Type :=
| CreateOrder (params : OrderParams)
| FuturesCreateOrder (params : OrderParams)
| FuturesExchangeInfo
| FuturesMarkPrice (symbol : string)
| FuturesAccount
| FuturesChangeLeverage (symbol : string) (leverage : Z).

Section Binance.

Context {World : Type}.

(** The instance: the exchange behind [self.client], the two accumulators
    of [__init__], the messages sent through [self.telegram], what was
    printed, and the gateway calls made. *)
Record Binance : Type := mkBinance {
  world : World;
  calls : list call;
  successful_orders : list json;
  failed_orders : list failed_order;
  telegram : list message;
  stdout : list string
}.

(** [__init__], after the credentials are loaded: both accumulators empty. *)
Definition init (w : World) : Binance :=
  {| world := w; calls := []; successful_orders := []; failed_orders := [];
     telegram := []; stdout := [] |}.

(** *** State and exceptions *)

Definition M (A : Type) : Type := Binance -> result A * Binance.

Definition ret {A : Type} (a : A) : M A := fun self => (Ret a, self).

Definition raise {A : Type} (e : exn) : M A := fun self => (Raise e, self).

Definition bind {A B : Type} (c : M A) (k : A -> M B) : M B :=
  fun self =>
    match c self with
    | (Ret a, self') => k a self'
    | (Raise e, self') => (Raise e, self')
    end.

Definition lift {A : Type} (r : result A) : M A := fun self => (r, self).

(** [try: c  except BinanceAPIException as e: handler(str(e))]; any other
    exception goes through. *)
Definition try_api {A : Type} (c : M A) (handler : string -> M A) : M A :=
  fun self =>
    match c self with
    | (Raise (BinanceAPIException str_e), self') => handler str_e self'
    | other => other
    end.

Definition get : M Binance := fun self => (Ret self, self).

(** The instance after a gateway call [c] that left the exchange in [w]. *)
Definition after_call (c : call) (w : World) (self : Binance) : Binance :=
  {| world := w; calls := calls self ++ [c];
     successful_orders := successful_orders self;
     failed_orders := failed_orders self;
     telegram := telegram self; stdout := stdout self |}.

Definition after_success (order : json) (self : Binance) : Binance :=
  {| world := world self; calls := calls self;
     successful_orders := successful_orders self ++ [order];
     failed_orders := failed_orders self;
     telegram := telegram self; stdout := stdout self |}.

Definition after_failure (f : failed_order) (self : Binance) : Binance :=
  {| world := world self; calls := calls self;
     successful_orders := successful_orders self;
     failed_orders := failed_orders self ++ [f];
     telegram := telegram self; stdout := stdout self |}.

Definition after_send (m : message) (self : Binance) : Binance :=
  {| world := world self; calls := calls self;
     successful_orders := successful_orders self;
     failed_orders := failed_orders self;
     telegram := telegram self ++ [m]; stdout := stdout self |}.

Definition after_print (line : string) (self : Binance) : Binance :=
  {| world := world self; calls := calls self;
     successful_orders := successful_orders self;
     failed_orders := failed_orders self;
     telegram := telegram self; stdout := stdout self ++ [line] |}.

(** A gateway call: recorded, then answered by the exchange. *)
Definition gateway {A : Type} (c : call) (op : World -> reply A * World) : M A :=
  fun self =>
    let (r, w) := op (world self) in
    match r with
    | Ok a => (Ret a, after_call c w self)
    | ApiError str_e => (Raise (BinanceAPIException str_e), after_call c w self)
    end.

(** [self.successful_orders.append(order)] *)
Definition append_successful (order : json) : M unit :=
  fun self => (Ret tt, after_success order self).

(** [self.failed_orders.append({...})] *)
Definition append_failed (f : failed_order) : M unit :=
  fun self => (Ret tt, after_failure f self).

(** [self.telegram.send_telegram_message(...)] *)
Definition send_telegram_message (m : message) : M unit :=
  fun self => (Ret tt, after_send m self).

(** [print(...)] *)
Definition print (line : string) : M unit :=
  fun self => (Ret tt, after_print line self).

End Binance.

Arguments Binance World : clear implicits.

Declare Scope py_scope.
Delimit Scope py_scope with py.
Notation "x <- c ;; k" := (bind c (fun x => k))
  (at level 100, c at next level, right associativity) : py_scope.
Notation "c ;;; k" := (bind c (fun _ => k))
  (at level 100, right associativity) : py_scope.

Local Open Scope py_scope.

Definition Qlt_bool (a b : Q) : bool := negb (Qle_bool b a).

(** A row of the orders table handed to [iterate_orders_df], with [Size] and
    [Price] already converted by [float]. *)
Record OrderRow : Type := {
  Symbol : string;
  Side : string;
  Size : Q;
  Price : Q
}.

(** The triple returned by [close_futures_positions]: every component is a
    list or [None]. *)
Definition close_result : Type :=
  (option (list json) * option (list failed_close) * option (list unclosable))%type.

(** ** Sizing of a close order: lines 222-227 of [close_futures_positions] *)
Definition close_quantity_of (position_amt mark_price : Q) (quantity : option Q)
    (quantity_type : string) (percentage : option Q) : result Q :=
  if PyFloat.truthy_opt percentage
  then Ret (Qabs position_amt * (PyFloat.value percentage / 100))
  else if andb (PyStr.upper quantity_type =? "USD")%string (PyFloat.truthy_opt quantity)
  then PyFloat.truediv (PyFloat.value quantity) mark_price
  else Ret (if PyFloat.truthy_opt quantity then PyFloat.value quantity
            else Qabs position_amt).

Section Operations.

Context {World : Type} (client : Client World).

Local Abbreviation M := (@M World).

(** [for x in xs: body(x)] *)
Fixpoint for_each {A : Type} (xs : list A) (body : A -> M unit) : M unit :=
  match xs with
  | [] => ret tt
  | x :: xs' => body x ;;; for_each xs' body
  end.

(** *** [place_order] (lines 47-75) *)

(** [order_params], with the two extra keys of a LIMIT order. *)
Definition spot_params (symbol side : string) (size price : Q)
    (order_type : string) : OrderParams :=
  if (PyStr.upper order_type =? "LIMIT")%string
  then {| p_symbol := symbol; p_side := PyStr.upper side;
          p_type := PyStr.upper order_type; p_quantity := size;
          p_price := Some (Some price); p_timeInForce := Some "GTC";
          p_reduceOnly := None |}
  else {| p_symbol := symbol; p_side := PyStr.upper side;
          p_type := PyStr.upper order_type; p_quantity := size;
          p_price := None; p_timeInForce := None;
          p_reduceOnly := None |}.

Definition place_order (symbol side : string) (size price : Q)
    (order_type : string) : M unit :=
  try_api
    (let order_params := spot_params symbol side size price order_type in
     order <- gateway (CreateOrder order_params) (create_order client order_params) ;;
     append_successful order ;;;
     send_telegram_message (MsgOrderPlaced order))
    (fun str_e =>
       append_failed (FailedOrder symbol side size price str_e) ;;;
       send_telegram_message (MsgOrderFailed symbol side str_e)).

(** *** [iterate_orders_df] (lines 33-45)

    The two lists returned are the instance's own accumulators. *)
Definition iterate_orders_df (orders : list OrderRow)
    : M (list json * list failed_order) :=
  match orders with
  | [] => ret ([], [])
  | _ =>
      for_each orders (fun row =>
        place_order (Symbol row) (Side row) (Size row) (Price row) "MARKET") ;;;
      self <- get ;;
      ret (successful_orders self, failed_orders self)
  end.

(** One statement of a [try] block that may raise [BinanceAPIException],
    followed by the rest of the block: the handler sees the local variables
    as they are when the statement raises. *)
Definition try_api_then {A B : Type} (c : M A) (handler : string -> M B)
    (rest : A -> M B) : M B :=
  fun self =>
    match c self with
    | (Ret a, self') => rest a self'
    | (Raise (BinanceAPIException str_e), self') => handler str_e self'
    | (Raise e, self') => (Raise e, self')
    end.

(** [params] of [place_futures_order], with the two extra keys of a LIMIT
    order; [price] may be [None] there. *)
Definition futures_params (symbol side : string) (quantity : Q)
    (price : option Q) (order_type : string) : OrderParams :=
  if (PyStr.upper order_type =? "LIMIT")%string
  then {| p_symbol := PyStr.upper symbol; p_side := PyStr.upper side;
          p_type := PyStr.upper order_type; p_quantity := quantity;
          p_price := Some price; p_timeInForce := Some "GTC";
          p_reduceOnly := None |}
  else {| p_symbol := PyStr.upper symbol; p_side := PyStr.upper side;
          p_type := PyStr.upper order_type; p_quantity := quantity;
          p_price := None; p_timeInForce := None;
          p_reduceOnly := None |}.

(** *** [place_futures_order] (lines 77-127)

    The [except] clause reads the locals [quantity] and [price], which the
    body reassigns; [on_error] takes the values they have at the raise. *)
Definition place_futures_order (symbol side : string) (quantity : Q)
    (price : option Q) (order_type quantity_type : string) : M (option json) :=
  let on_error (quantity : Q) (price : option Q) (str_e : string) : M (option json) :=
    append_failed (FailedFuturesOrder symbol side quantity price str_e) ;;;
    send_telegram_message (MsgFuturesOrderFailed symbol side str_e) ;;;
    ret None in
  try_api_then
    (gateway FuturesExchangeInfo (futures_exchange_info client))
    (on_error quantity price)
    (fun symbols =>
  match find (fun info => (info_symbol info =? PyStr.upper symbol)%string) symbols with
  | None =>
      raise (ValueError ("Symbol " ++ symbol ++ " not found in exchange info."))
  | Some info =>
      let step_size := stepSize info in
      let tick_size := tickSize info in
      try_api_then
        (if (PyStr.upper quantity_type =? "USD")%string
         then mark_price <- gateway (FuturesMarkPrice symbol)
                              (futures_mark_price client symbol) ;;
              lift (PyFloat.truediv quantity mark_price)
         else ret quantity)
        (on_error quantity price)
        (fun quantity =>
      quantity <- lift (round_to_precision quantity step_size) ;;
      price <- lift (round_price price tick_size) ;;
      let params := futures_params symbol side quantity price order_type in
      try_api_then
        (gateway (FuturesCreateOrder params) (futures_create_order client params))
        (on_error quantity price)
        (fun order =>
      append_successful order ;;;
      send_telegram_message (MsgFuturesOrderPlaced order) ;;;
      ret (Some order)))
  end).

(** *** [change_leverage] (lines 129-147) *)
Definition change_leverage (symbol : string) (leverage : Z) : M (option json) :=
  try_api
    (response <- gateway (FuturesChangeLeverage symbol leverage)
                   (futures_change_leverage client symbol leverage) ;;
     send_telegram_message (MsgLeverageChanged symbol leverage response) ;;;
     ret (Some response))
    (fun str_e =>
       send_telegram_message (MsgLeverageFailed symbol leverage str_e) ;;;
       ret None).

(** *** [close_futures_positions] (lines 186-285) *)

(** The three local accumulators of the sweep. *)
Definition closes : Type :=
  (list json * list failed_close * list unclosable)%type.

(** The parameters of the reduce-only market order that closes a position. *)
Definition close_params (symbol side : string) (close_quantity : Q) : OrderParams :=
  {| p_symbol := symbol; p_side := side; p_type := "MARKET";
     p_quantity := close_quantity; p_price := None; p_timeInForce := None;
     p_reduceOnly := Some true |}.

(** The inner [try] (lines 229-273) for one open position. *)
Definition close_one (symbol side : string) (position_amt notional_value
    close_quantity : Q) (acc : closes) : M closes :=
  let '(successful_closes, failed_closes, unclosable_positions) := acc in
  try_api
    ((if Qlt_bool (Qabs position_amt) close_quantity
      then print ("Close quantity exceeds open position size for " ++ symbol ++ ".")
      else ret tt) ;;;
     order <-
       (if Qlt_bool notional_value 5
        then order <- gateway (FuturesCreateOrder (close_params symbol side close_quantity))
                        (futures_create_order client (close_params symbol side close_quantity)) ;;
             send_telegram_message (MsgClosedSmall symbol order) ;;;
             ret order
        else order <- gateway (FuturesCreateOrder (close_params symbol side close_quantity))
                        (futures_create_order client (close_params symbol side close_quantity)) ;;
             send_telegram_message (MsgClosed symbol order) ;;;
             ret order) ;;
     ret ((successful_closes ++ [order])%list, failed_closes, unclosable_positions))
    (fun str_e =>
       if PyStr.contains "notional must be no smaller than 5" str_e
       then
         send_telegram_message (MsgUnclosable symbol notional_value) ;;;
         ret (successful_closes, failed_closes,
              (unclosable_positions ++
                 [{| u_symbol := symbol; u_notional := notional_value;
                     u_error := "Notional value too small to close." |}])%list)
       else
         send_telegram_message (MsgCloseFailed symbol str_e) ;;;
         ret (successful_closes,
              (failed_closes ++ [{| fc_symbol := symbol; fc_error := str_e |}])%list,
              unclosable_positions)).

(** ["SELL" if position_amt > 0 else "BUY"] *)
Definition closing_side (position_amt : Q) : string :=
  if Qlt_bool 0 position_amt then "SELL" else "BUY".

(** The [for position in positions] loop (lines 210-273). *)
Fixpoint close_loop (positions : list Position) (quantity : option Q)
    (quantity_type : string) (percentage : option Q) (acc : closes) : M closes :=
  match positions with
  | [] => ret acc
  | position :: rest =>
      let position_amt := positionAmt position in
      if Qeq_bool position_amt 0
      then close_loop rest quantity quantity_type percentage acc
      else
        let symbol := pos_symbol position in
        mark_price <- gateway (FuturesMarkPrice symbol)
                        (futures_mark_price client symbol) ;;
        let notional_value := Qabs (position_amt * mark_price) in
        let side := closing_side position_amt in
        close_quantity <- lift (close_quantity_of position_amt mark_price
                                  quantity quantity_type percentage) ;;
        acc' <- close_one symbol side position_amt notional_value
                  close_quantity acc ;;
        close_loop rest quantity quantity_type percentage acc'
  end.

(** [positions] after the [if symbol:] filter; [None] and the empty string
    are falsy. *)
Definition filter_symbol (symbol : option string) (positions : list Position)
    : list Position :=
  match symbol with
  | None | Some EmptyString => positions
  | Some s => filter (fun pos => (pos_symbol pos =? PyStr.upper s)%string) positions
  end.

Definition close_futures_positions (symbol : option string) (quantity : option Q)
    (quantity_type : string) (percentage : option Q) : M close_result :=
  try_api
    (positions <- gateway FuturesAccount (futures_account client) ;;
     let positions := filter_symbol symbol positions in
     acc <- close_loop positions quantity quantity_type percentage ([], [], []) ;;
     let '(successful_closes, failed_closes, unclosable_positions) := acc in
     (match unclosable_positions with
      | [] => ret tt
      | _ => send_telegram_message (MsgUnclosableSummary unclosable_positions)
      end) ;;;
     ret (Some successful_closes, Some failed_closes, Some unclosable_positions))
    (fun str_e =>
       send_telegram_message (MsgFetchPositionsFailed str_e) ;;;
       ret (None, None, None)).

End Operations.

(** ** A test double for the gateway

    A stateless exchange given by its answers, used to run the operations on
    concrete inputs. *)
Module TestDouble.

Record Exchange : Type := {
  symbols : list SymbolInfo;
  mark : string -> reply Q;
  positions : reply (list Position);
  answer : OrderParams -> reply json;
  leverage_answer : string -> Z -> reply json
}.

Definition client (x : Exchange) : Client unit :=
  {| create_order := fun params w => (answer x params, w);
     futures_create_order := fun params w => (answer x params, w);
     futures_exchange_info := fun w => (Ok (symbols x), w);
     futures_mark_price := fun symbol w => (mark x symbol, w);
     futures_account := fun w => (positions x, w);
     futures_change_leverage := fun symbol leverage w =>
                                  (leverage_answer x symbol leverage, w) |}.

(** The confirmation the double returns for an accepted order. *)
Definition confirmation (params : OrderParams) : json :=
  [("symbol", p_symbol params); ("side", p_side params); ("status", "FILLED")].

Definition too_small : string :=
  "APIError(code=-4164): Order's notional must be no smaller than 5 (unless you choose reduce only).".

Definition mark_of (symbol : string) : reply Q :=
  if (symbol =? "BTCUSDT")%string then Ok 60000
  else if (symbol =? "ETHUSDT")%string then Ok 3000
  else if (symbol =? "ADAUSDT")%string then Ok (2 # 5)
  else ApiError "APIError(code=-1121): Invalid symbol.".

Definition filters : list SymbolInfo :=
  [ {| info_symbol := "BTCUSDT"; stepSize := 1 # 1000; tickSize := 1 # 10 |};
    {| info_symbol := "ETHUSDT"; stepSize := 1 # 1000; tickSize := 1 # 100 |};
    {| info_symbol := "ADAUSDT"; stepSize := 1; tickSize := 1 # 10000 |} ].

(** The three open positions of the specification's scenario. *)
Definition three_positions : list Position :=
  [ {| pos_symbol := "BTCUSDT"; positionAmt := 1 # 2 |};
    {| pos_symbol := "ETHUSDT"; positionAmt := 1 # 1000 |};
    {| pos_symbol := "ADAUSDT"; positionAmt := -100 |} ].

(** An exchange that accepts every order except those on ETHUSDT, which it
    rejects as below the minimum notional. *)
Definition exchange : Exchange :=
  {| symbols := filters;
     mark := mark_of;
     positions := Ok three_positions;
     answer := fun params =>
       if (p_symbol params =? "ETHUSDT")%string then ApiError too_small
       else Ok (confirmation params);
     leverage_answer := fun symbol leverage =>
       if (leverage <=? 0)%Z
       then ApiError "APIError(code=-4028): Leverage is not valid."
       else Ok [("symbol", symbol)] |}.

(** The example table of the source, with a third row. *)
Definition btc_row : OrderRow :=
  {| Symbol := "BTCUSDT"; Side := "BUY"; Size := 1 # 1000; Price := 20000 |}.

Definition eth_row : OrderRow :=
  {| Symbol := "ETHUSDT"; Side := "SELL"; Size := 1 # 100; Price := 1500 |}.

Definition ada_row : OrderRow :=
  {| Symbol := "ADAUSDT"; Side := "buy"; Size := 10; Price := 2 # 5 |}.

(** The same exchange when the account endpoint is down. *)
Definition account_down : Exchange :=
  {| symbols := symbols exchange;
     mark := mark exchange;
     positions := ApiError "APIError(code=-1001): Internal error; unable to process your request.";
     answer := answer exchange;
     leverage_answer := leverage_answer exchange |}.

(** An exchange that rejects every order. *)
Definition no_margin : string := "APIError(code=-2019): Margin is insufficient.".

Definition rejecting : Exchange :=
  {| symbols := symbols exchange;
     mark := mark exchange;
     positions := positions exchange;
     answer := fun _ => ApiError no_margin;
     leverage_answer := leverage_answer exchange |}.

(** An exchange whose filters hold a zero step and a zero tick. *)
Definition zero_filters : Exchange :=
  {| symbols :=
       [ {| info_symbol := "NOSTEPUSDT"; stepSize := 0; tickSize := 1 # 10 |};
         {| info_symbol := "NOTICKUSDT"; stepSize := 1 # 1000; tickSize := 0 |} ];
     mark := mark exchange;
     positions := positions exchange;
     answer := fun params => Ok (confirmation params);
     leverage_answer := leverage_answer exchange |}.

(** Three open positions, the second on a symbol whose mark price the
    exchange refuses to quote; every order is accepted. *)
Definition unquoted_positions : list Position :=
  [ {| pos_symbol := "BTCUSDT"; positionAmt := 1 # 2 |};
    {| pos_symbol := "XYZUSDT"; positionAmt := 1 |};
    {| pos_symbol := "ADAUSDT"; positionAmt := -100 |} ].

Definition unquoted : Exchange :=
  {| symbols := filters;
     mark := mark_of;
     positions := Ok unquoted_positions;
     answer := fun params => Ok (confirmation params);
     leverage_answer := leverage_answer exchange |}.

End TestDouble.

(** ** Vocabulary of the properties *)

Section Vocabulary.

Context {World : Type} (client : Client World).

(** The warning of line 231, printed when the close exceeds the position. *)
Definition warned (symbol : string) (position_amt close_quantity : Q)
    (self : Binance World) : Binance World :=
  if Qlt_bool (Qabs position_amt) close_quantity
  then after_print ("Close quantity exceeds open position size for " ++ symbol ++ ".") self
  else self.

(** How the sweep files a close order the gateway rejected with [str_e]. *)
Definition classify (symbol : string) (notional_value : Q) (str_e : string)
    (acc : closes) : closes :=
  let '(successful_closes, failed_closes, unclosable_positions) := acc in
  if PyStr.contains "notional must be no smaller than 5" str_e
  then (successful_closes, failed_closes,
        (unclosable_positions ++
           [{| u_symbol := symbol; u_notional := notional_value;
               u_error := "Notional value too small to close." |}])%list)
  else (successful_closes,
        (failed_closes ++ [{| fc_symbol := symbol; fc_error := str_e |}])%list,
        unclosable_positions).

Definition rejection_message (symbol : string) (notional_value : Q)
    (str_e : string) : message :=
  if PyStr.contains "notional must be no smaller than 5" str_e
  then MsgUnclosable symbol notional_value
  else MsgCloseFailed symbol str_e.

Definition closed_message (symbol : string) (notional_value : Q)
    (order : json) : message :=
  if Qlt_bool notional_value 5 then MsgClosedSmall symbol order
  else MsgClosed symbol order.

(** The request [iterate_orders_df] sends for a row. *)
Definition row_params (row : OrderRow) : OrderParams :=
  spot_params (Symbol row) (Side row) (Size row) (Price row) "MARKET".

(** The answers of the exchange, from the state [w], to the requests of the
    rows taken in order. *)
Fixpoint answers (rows : list OrderRow) (w : World) : list (reply json) :=
  match rows with
  | [] => []
  | row :: rest =>
      let (r, w') := create_order client (row_params row) w in
      r :: answers rest w'
  end.

(** The confirmations among the answers. *)
Fixpoint accepted (rs : list (reply json)) : list json :=
  match rs with
  | [] => []
  | Ok order :: rs' => order :: accepted rs'
  | ApiError _ :: rs' => accepted rs'
  end.

(** The failure records of the rows whose answer is an error. *)
Fixpoint rejected (rows : list OrderRow) (rs : list (reply json)) : list failed_order :=
  match rows, rs with
  | row :: rows', Ok _ :: rs' => rejected rows' rs'
  | row :: rows', ApiError str_e :: rs' =>
      FailedOrder (Symbol row) (Side row) (Size row) (Price row) str_e
        :: rejected rows' rs'
  | _, _ => []
  end.

End Vocabulary.



(** The result of the second of two successive batches holds the outcomes of
    the second batch's requests and nothing else. *)
Definition per_call_scoped {World : Type} (client : Client World)
    (self : Binance World) (rows1 rows2 : list OrderRow) : Prop :=
  forall (r1 r2 : list json * list failed_order) (self1 self2 : Binance World),
    iterate_orders_df client rows1 self = (Ret r1, self1) ->
    iterate_orders_df client rows2 self1 = (Ret r2, self2) ->
    r2 = (accepted (answers client rows2 (world self1)),
          rejected rows2 (answers client rows2 (world self1))).


(** The order placement stops on an error that is not a division by zero. *)
Definition fails_without_dividing {A : Type} (r : result A) : Prop :=
  exists e : exn, r = Raise e /\ forall msg : string, e <> ZeroDivisionError msg.

(** [change_leverage] returns without a gateway call. *)
Definition fails_fast_locally {World : Type} (client : Client World)
    (symbol : string) (leverage : Z) (self : Binance World) : Prop :=
  calls (snd (change_leverage client symbol leverage self)) = calls self.

(** ** [view_open_futures_positions] (lines 288-348) *)

(** An entry of [futures_account()['positions']] with every key the view
    reads, the numbers already converted.  [d_liquidationPrice] is [None] when
    the key is absent or holds an empty string, the two cases that
    [if liquidation_price:] takes as missing. *)
Record PositionDetail : Type := {
  d_symbol : string;
  d_positionAmt : Q;
  d_entryPrice : Q;
  d_leverage : Z;
  d_unrealizedProfit : Q;
  d_liquidationPrice : option Q
}.

(** A row of the table.  The source renders the money columns with
    [f"${x:,.2f}"] and the leverage with [f"{leverage}x"]; the row keeps the
    number that is rendered, and a liquidation price of [None] stands for the
    text "N/A". *)
Record PositionRow : Type := {
  row_Symbol : string;
  row_SizeContracts : Q;
  row_SizeUSD : Q;
  row_EntryPrice : Q;
  row_MarkPrice : Q;
  row_PNL : Q;
  row_LiquidationPrice : option Q;
  row_Leverage : Z
}.

(** A [pd.DataFrame]: its column labels and its rows. *)
Record DataFrame : Type := {
  columns : list string;
  rows : list PositionRow
}.

Definition position_columns : list string :=
  ["Symbol"; "Size (Contracts)"; "Size (USD)"; "Entry Price"; "Mark Price";
   "PNL (Unrealized)"; "Liquidation Price"; "Leverage"]%string.

Section View.

Context {World : Type} (client : Client World).

(** The account endpoint read in full: the same gateway call as
    [futures_account client]. *)
Variable futures_account_details : World -> reply (list PositionDetail) * World.

(** The instance together with the plain texts sent through the notifier by
    the view (a text made of strings only is kept as it is). *)
Record Terminal : Type := {
  instance : Binance World;
  notices : list string
}.

(** The dictionary appended to [position_data]. *)
Definition position_row (position : PositionDetail) (mark_price : Q) : PositionRow :=
  {| row_Symbol := d_symbol position;
     row_SizeContracts := d_positionAmt position;
     row_SizeUSD := Qabs (d_positionAmt position * mark_price);
     row_EntryPrice := d_entryPrice position;
     row_MarkPrice := mark_price;
     row_PNL := d_unrealizedProfit position;
     row_LiquidationPrice := d_liquidationPrice position;
     row_Leverage := d_leverage position |}.

(** The [for position in positions] loop (lines 307-334). *)
Fixpoint view_loop (positions : list PositionDetail) (position_data : list PositionRow)
    : @M World (list PositionRow) :=
  match positions with
  | [] => ret position_data
  | position :: rest =>
      if negb (Qeq_bool (d_positionAmt position) 0)
      then
        mark_price <- gateway (FuturesMarkPrice (d_symbol position))
                        (futures_mark_price client (d_symbol position)) ;;
        view_loop rest (position_data ++ [position_row position mark_price])%list
      else view_loop rest position_data
  end.

(** The body of the [try] (lines 301-344). *)
Definition view_body : @M World DataFrame :=
  positions <- gateway FuturesAccount futures_account_details ;;
  position_data <- view_loop positions [] ;;
  match position_data with
  | [] => ret {| columns := position_columns; rows := [] |}
  | _ => ret {| columns := position_columns; rows := position_data |}
  end.

Definition view_open_futures_positions (t : Terminal) : result DataFrame * Terminal :=
  match view_body (instance t) with
  | (Raise (BinanceAPIException str_e), self') =>
      (Ret {| columns := []; rows := [] |},
       {| instance := self';
          notices := notices t ++
                       [("Failed to fetch open futures positions: " ++ str_e)%string] |})
  | (r, self') => (r, {| instance := self'; notices := notices t |})
  end.

End View.

(** [position_amt != 0] *)
Definition is_open_detail (position : PositionDetail) : bool :=
  negb (Qeq_bool (d_positionAmt position) 0).


(** A gateway call that only reads. *)
Definition is_query (c : call) : Prop :=
  match c with
  | FuturesAccount | FuturesMarkPrice _ => True
  | _ => False
  end.

(** Further exchanges for the test double. *)
Module TestDoubleMore.

(** The exchange of [TestDouble.unquoted], listing the unquoted symbol too. *)
Definition unquoted_listed : TestDouble.Exchange :=
  {| TestDouble.symbols :=
       {| info_symbol := "XYZUSDT"; stepSize := 1; tickSize := 1 # 100 |}
         :: TestDouble.filters;
     TestDouble.mark := TestDouble.mark_of;
     TestDouble.positions := Ok TestDouble.unquoted_positions;
     TestDouble.answer := fun params => Ok (TestDouble.confirmation params);
     TestDouble.leverage_answer := TestDouble.leverage_answer TestDouble.exchange |}.

(** The exchange of [TestDouble.exchange] quoting every mark price at zero. *)
Definition unpriced : TestDouble.Exchange :=
  {| TestDouble.symbols := TestDouble.filters;
     TestDouble.mark := fun _ => Ok 0;
     TestDouble.positions := Ok TestDouble.three_positions;
     TestDouble.answer := fun params => Ok (TestDouble.confirmation params);
     TestDouble.leverage_answer := TestDouble.leverage_answer TestDouble.exchange |}.

(** The account of [TestDouble.exchange], read in full. *)
Definition details : list PositionDetail :=
  [ {| d_symbol := "BTCUSDT"; d_positionAmt := 1 # 2; d_entryPrice := 58000;
       d_leverage := 10; d_unrealizedProfit := 1000;
       d_liquidationPrice := Some 52500 |};
    {| d_symbol := "SOLUSDT"; d_positionAmt := 0; d_entryPrice := 0;
       d_leverage := 20; d_unrealizedProfit := 0; d_liquidationPrice := None |};
    {| d_symbol := "ADAUSDT"; d_positionAmt := -100; d_entryPrice := 1 # 2;
       d_leverage := 5; d_unrealizedProfit := 10; d_liquidationPrice := None |} ].

Definition account_details (w : unit) : reply (list PositionDetail) * unit :=
  (Ok details, w).

(** An account whose positions are all flat. *)
Definition account_details_flat (w : unit) : reply (list PositionDetail) * unit :=
  (Ok [ {| d_symbol := "SOLUSDT"; d_positionAmt := 0; d_entryPrice := 0;
           d_leverage := 20; d_unrealizedProfit := 0; d_liquidationPrice := None |} ],
   w).

(** An account holding a position on a symbol the exchange does not quote. *)
Definition account_details_unquoted (w : unit) : reply (list PositionDetail) * unit :=
  (Ok [ {| d_symbol := "BTCUSDT"; d_positionAmt := 1 # 2; d_entryPrice := 58000;
           d_leverage := 10; d_unrealizedProfit := 1000;
           d_liquidationPrice := Some 52500 |};
        {| d_symbol := "XYZUSDT"; d_positionAmt := 1; d_entryPrice := 1;
           d_leverage := 1; d_unrealizedProfit := 0; d_liquidationPrice := None |} ],
   w).

Definition account_details_down (w : unit) : reply (list PositionDetail) * unit :=
  (ApiError "APIError(code=-1001): Internal error; unable to process your request.", w).

End TestDoubleMore.

(** ** Vocabulary of the further properties *)

(** A gateway call that submits an order. *)
Definition is_submission (c : call) : bool :=
  match c with
  | CreateOrder _ | FuturesCreateOrder _ => true
  | _ => false
  end.

(** The number of orders submitted among the calls. *)
Definition submissions (cs : list call) : nat :=
  List.length (filter is_submission cs).

(** A gateway call the position sweep may make: a query, or a reduce-only
    market order without price. *)
Definition is_sweep_call (c : call) : Prop :=
  match c with
  | FuturesAccount | FuturesMarkPrice _ => True
  | FuturesCreateOrder params =>
      p_reduceOnly params = Some true /\ p_type params = "MARKET"%string /\
      p_price params = None /\ p_timeInForce params = None
  | _ => False
  end.

(** [position_amt != 0] *)
Definition is_open (position : Position) : bool :=
  negb (Qeq_bool (positionAmt position) 0).


(** The number of positions filed in the three lists of the sweep. *)
Definition total_closes (acc : closes) : nat :=
  let '(successful_closes, failed_closes, unclosable_positions) := acc in
  (List.length successful_closes + List.length failed_closes
   + List.length unclosable_positions)%nat.

(** A gateway call about the instrument [symbol]. *)
Definition concerns (symbol : string) (c : call) : Prop :=
  match c with
  | FuturesMarkPrice s => s = symbol
  | FuturesCreateOrder params => p_symbol params = symbol
  | _ => False
  end.

(** * Properties *)

(** ** Rounding facts *)

Module PrecisionFacts.

Import PyFloat.














End PrecisionFacts.

(** ** C1: floor to a multiple of the step *)






(** With step 25 the result is not a multiple of the step either:
    [round(30 // 25 * 25, -1) = round(25.0, -1) = 20.0]. *)
Example round_to_precision_step_25 :
  round_to_precision 30 25 = Ret (20 # 1).
Proof. vm_compute. reflexivity. Qed.

(** ** C6: sizing policy of a close order *)




(** The two sizing examples of the specification. *)
Example close_half_of_ten :
  close_quantity_of 10 50000 None "CONTRACTS" (Some 50) = Ret (Qabs 10 * (50 / 100)) /\
  Qabs 10 * (50 / 100) == 5.
Proof. split; reflexivity. Qed.

Example close_hundred_usd :
  close_quantity_of 10 50000 (Some 100) "USD" None = Ret (100 / 50000) /\
  100 / 50000 == 2 # 1000.
Proof. split; reflexivity. Qed.

(** ** The position sweep *)

Section Sweep.

Context {World : Type} (client : Client World).

(** A rejected close order is filed and the inner [try] returns. *)
Lemma close_one_rejected symbol side position_amt notional_value close_quantity
    (acc : closes) (self : Binance World) (str_e : string) (w : World) :
  futures_create_order client (close_params symbol side close_quantity) (world self)
    = (ApiError str_e, w) ->
  close_one client symbol side position_amt notional_value close_quantity acc self =
    (Ret (classify symbol notional_value str_e acc),
     after_send (rejection_message symbol notional_value str_e)
       (after_call (FuturesCreateOrder (close_params symbol side close_quantity)) w
          (warned symbol position_amt close_quantity self))).
Proof.
  intro H. destruct acc as [[s f] u].
  unfold close_one, classify, rejection_message, warned, try_api, bind, gateway,
    print, ret, send_telegram_message.
  destruct (Qlt_bool (Qabs position_amt) close_quantity);
    destruct (Qlt_bool notional_value 5); cbn [world after_print];
    rewrite H;
    destruct (PyStr.contains "notional must be no smaller than 5" str_e);
    reflexivity.
Qed.

(** An accepted close order is appended to the successes. *)
Lemma close_one_accepted symbol side position_amt notional_value close_quantity
    (s : list json) (f : list failed_close) (u : list unclosable)
    (self : Binance World) (order : json) (w : World) :
  futures_create_order client (close_params symbol side close_quantity) (world self)
    = (Ok order, w) ->
  close_one client symbol side position_amt notional_value close_quantity (s, f, u) self =
    (Ret ((s ++ [order])%list, f, u),
     after_send (closed_message symbol notional_value order)
       (after_call (FuturesCreateOrder (close_params symbol side close_quantity)) w
          (warned symbol position_amt close_quantity self))).
Proof.
  intro H.
  unfold close_one, closed_message, warned, try_api, bind, gateway,
    print, ret, send_telegram_message.
  destruct (Qlt_bool (Qabs position_amt) close_quantity);
    destruct (Qlt_bool notional_value 5); cbn [world after_print];
    rewrite H; reflexivity.
Qed.

(** The inner [try] never raises: whatever the gateway answers to the close
    order, the position is filed in one of the three lists. *)
Lemma close_one_returns symbol side position_amt notional_value close_quantity
    (acc : closes) (self : Binance World) :
  exists (acc' : closes) (self' : Binance World),
    close_one client symbol side position_amt notional_value close_quantity acc self
      = (Ret acc', self').
Proof.
  destruct (futures_create_order client (close_params symbol side close_quantity)
              (world self)) as [[order | str_e] w] eqn:H.
  - destruct acc as [[s f] u]. do 2 eexists.
    apply (close_one_accepted _ _ _ _ _ _ _ _ _ _ _ H).
  - do 2 eexists. apply (close_one_rejected _ _ _ _ _ _ _ _ _ H).
Qed.

(** One iteration of the loop on an open position whose mark price and
    close quantity are obtained. *)
Lemma close_loop_step (position : Position) (rest : list Position)
    (quantity : option Q) (quantity_type : string) (percentage : option Q)
    (acc : closes) (self : Binance World) (mark_price close_quantity : Q) (w : World) :
  ~ positionAmt position == 0 ->
  futures_mark_price client (pos_symbol position) (world self) = (Ok mark_price, w) ->
  close_quantity_of (positionAmt position) mark_price quantity quantity_type percentage
    = Ret close_quantity ->
  close_loop client (position :: rest) quantity quantity_type percentage acc self =
    bind (close_one client (pos_symbol position) (closing_side (positionAmt position))
            (positionAmt position) (Qabs (positionAmt position * mark_price))
            close_quantity acc)
         (close_loop client rest quantity quantity_type percentage)
         (after_call (FuturesMarkPrice (pos_symbol position)) w self).
Proof.
  intros Hamt Hmark Hq. cbn [close_loop].
  destruct (Qeq_bool (positionAmt position) 0) eqn:E.
  - apply Qeq_bool_iff in E. contradiction.
  - unfold bind at 1. unfold gateway at 1. rewrite Hmark.
    unfold bind at 1. unfold lift. rewrite Hq. reflexivity.
Qed.

End Sweep.

(** ** C2: Unclosable against Failed *)



(** ** C10: the account fetch fails *)

(** C10: when the initial [futures_account] call raises a gateway error, the
    sweep reports it and returns [(None, None, None)], not three lists. *)
Theorem account_error_returns_three_nones {World : Type} (client : Client World)
    (symbol : option string) (quantity : option Q) (quantity_type : string)
    (percentage : option Q) (self : Binance World) (str_e : string) (w : World) :
  futures_account client (world self) = (ApiError str_e, w) ->
  close_futures_positions client symbol quantity quantity_type percentage self =
    (Ret (None, None, None),
     after_send (MsgFetchPositionsFailed str_e) (after_call FuturesAccount w self)).
Proof.
  intro H.
  unfold close_futures_positions, try_api, bind at 1, gateway.
  rewrite H. reflexivity.
Qed.

Lemma account_error_returns_three_nones_witness :
  close_futures_positions (TestDouble.client TestDouble.account_down)
    None None "CONTRACTS" None (init tt) =
  (Ret (None, None, None),
   after_send
     (MsgFetchPositionsFailed
        "APIError(code=-1001): Internal error; unable to process your request.")
     (after_call FuturesAccount tt (init tt))).
Proof.
  apply (account_error_returns_three_nones (TestDouble.client TestDouble.account_down)).
  reflexivity.
Defined.

(** The scenario of the specification: BTCUSDT and ADAUSDT are closed, on the
    side opposite to the position, and ETHUSDT is unclosable. *)
Example sweep_of_three_positions :
  let '(r, self) :=
    close_futures_positions (TestDouble.client TestDouble.exchange)
      None None "CONTRACTS" None (init tt) in
  r = Ret (Some [ TestDouble.confirmation (close_params "BTCUSDT" "SELL" (Qabs (1 # 2)));
                  TestDouble.confirmation (close_params "ADAUSDT" "BUY" (Qabs (-100))) ],
           Some [],
           Some [ {| u_symbol := "ETHUSDT"; u_notional := Qabs ((1 # 1000) * 3000);
                     u_error := "Notional value too small to close." |} ]).
Proof. vm_compute. reflexivity. Qed.

(** ** C5: an error on one position and the rest of the sweep *)

(** The mark-price fetch of line 216 is outside the inner [try]: when it
    raises on an open position the loop stops there with the exception. *)
Lemma mark_price_error_leaves_loop {World : Type} (client : Client World)
    (position : Position) (rest : list Position)
    (quantity : option Q) (quantity_type : string) (percentage : option Q)
    (acc : closes) (self : Binance World) (str_e : string) (w : World) :
  ~ positionAmt position == 0 ->
  futures_mark_price client (pos_symbol position) (world self) = (ApiError str_e, w) ->
  close_loop client (position :: rest) quantity quantity_type percentage acc self =
    (Raise (BinanceAPIException str_e),
     after_call (FuturesMarkPrice (pos_symbol position)) w self).
Proof.
  intros Hamt Hmark. cbn [close_loop].
  destruct (Qeq_bool (positionAmt position) 0) eqn:E.
  - apply Qeq_bool_iff in E. contradiction.
  - unfold bind at 1. unfold gateway at 1. rewrite Hmark. reflexivity.
Qed.

(** C5 (the code at the failing input): of three open positions the second
    has a mark price the exchange refuses to quote.  The first is closed, the
    error on the second ends the sweep: the third is never attempted, the
    first close is not reported, and the result is [(None, None, None)]. *)
Theorem mark_price_error_aborts_sweep :
  let '(r, self) :=
    close_futures_positions (TestDouble.client TestDouble.unquoted)
      None None "CONTRACTS" None (init tt) in
  r = Ret (None, None, None) /\
  calls self =
    [ FuturesAccount;
      FuturesMarkPrice "BTCUSDT";
      FuturesCreateOrder (close_params "BTCUSDT" "SELL" (Qabs (1 # 2)));
      FuturesMarkPrice "XYZUSDT" ] /\
  telegram self =
    [ MsgClosed "BTCUSDT"
        (TestDouble.confirmation (close_params "BTCUSDT" "SELL" (Qabs (1 # 2))));
      MsgFetchPositionsFailed "APIError(code=-1121): Invalid symbol." ].
Proof. vm_compute. repeat split. Qed.

(** ** The batch operation *)

Section Batch.

Context {World : Type} (client : Client World).

Lemma place_order_accepted symbol side size price order_type
    (self : Binance World) (order : json) (w : World) :
  create_order client (spot_params symbol side size price order_type) (world self)
    = (Ok order, w) ->
  place_order client symbol side size price order_type self =
    (Ret tt,
     after_send (MsgOrderPlaced order)
       (after_success order
          (after_call (CreateOrder (spot_params symbol side size price order_type))
             w self))).
Proof.
  intro H. unfold place_order, try_api, bind, gateway. rewrite H. reflexivity.
Qed.

Lemma place_order_rejected symbol side size price order_type
    (self : Binance World) (str_e : string) (w : World) :
  create_order client (spot_params symbol side size price order_type) (world self)
    = (ApiError str_e, w) ->
  place_order client symbol side size price order_type self =
    (Ret tt,
     after_send (MsgOrderFailed symbol side str_e)
       (after_failure (FailedOrder symbol side size price str_e)
          (after_call (CreateOrder (spot_params symbol side size price order_type))
             w self))).
Proof.
  intro H. unfold place_order, try_api, bind, gateway. rewrite H. reflexivity.
Qed.

(** The loop of [iterate_orders_df] sends one request per row, in order,
    whatever the answers, and appends each outcome to the accumulator of its
    kind. *)
Lemma for_each_place_order (rows : list OrderRow) :
  forall self : Binance World,
  exists self' : Binance World,
    for_each rows (fun row =>
      place_order client (Symbol row) (Side row) (Size row) (Price row) "MARKET") self
      = (Ret tt, self') /\
    successful_orders self' =
      (successful_orders self ++ accepted (answers client rows (world self)))%list /\
    failed_orders self' =
      (failed_orders self ++ rejected rows (answers client rows (world self)))%list /\
    calls self' =
      (calls self ++ map (fun row => CreateOrder (row_params row)) rows)%list.
Proof.
  induction rows as [| row rest IH]; intro self.
  - exists self. cbn. rewrite !app_nil_r. repeat split.
  - cbn [for_each answers]. unfold bind at 1. fold (row_params row).
    destruct (create_order client (row_params row) (world self)) as [[order | str_e] w] eqn:H.
    + rewrite (place_order_accepted _ _ _ _ _ self order w H).
      destruct (IH (after_send (MsgOrderPlaced order)
                      (after_success order
                         (after_call (CreateOrder (row_params row)) w self))))
        as [self' [E [S [F C]]]].
      exists self'. split; [exact E |].
      cbn [world successful_orders failed_orders calls after_send after_success
             after_call] in S, F, C.
      rewrite S, F, C. cbn [accepted rejected map].
      rewrite <- !app_assoc. repeat split.
    + rewrite (place_order_rejected _ _ _ _ _ self str_e w H).
      destruct (IH (after_send (MsgOrderFailed (Symbol row) (Side row) str_e)
                      (after_failure
                         (FailedOrder (Symbol row) (Side row) (Size row) (Price row) str_e)
                         (after_call (CreateOrder (row_params row)) w self))))
        as [self' [E [S [F C]]]].
      exists self'. split; [exact E |].
      cbn [world successful_orders failed_orders calls after_send after_failure
             after_call] in S, F, C.
      rewrite S, F, C. cbn [accepted rejected map].
      rewrite <- !app_assoc. repeat split.
Qed.

(** A non-empty batch returns the accumulators of the instance: what they
    held before the call, followed by the outcomes of the call. *)
Lemma iterate_orders_df_nonempty (rows : list OrderRow) (self : Binance World) :
  rows <> [] ->
  exists self' : Binance World,
    iterate_orders_df client rows self =
      (Ret ((successful_orders self ++ accepted (answers client rows (world self)))%list,
            (failed_orders self ++ rejected rows (answers client rows (world self)))%list),
       self') /\
    successful_orders self' =
      (successful_orders self ++ accepted (answers client rows (world self)))%list /\
    failed_orders self' =
      (failed_orders self ++ rejected rows (answers client rows (world self)))%list /\
    calls self' =
      (calls self ++ map (fun row => CreateOrder (row_params row)) rows)%list.
Proof.
  intro N. destruct (for_each_place_order rows self) as [self' [E [S [F C]]]].
  exists self'. split; [| repeat split; assumption].
  destruct rows as [| row rest]; [contradiction |].
  unfold iterate_orders_df. unfold bind at 1. rewrite E.
  unfold bind, get, ret. rewrite S, F. reflexivity.
Qed.

End Batch.

Section BatchFacts.

Context {World : Type} (client : Client World).

Lemma answers_length (rows : list OrderRow) :
  forall w : World, List.length (answers client rows w) = List.length rows.
Proof.
  induction rows as [| row rest IH]; intro w; cbn [answers].
  - reflexivity.
  - destruct (create_order client (row_params row) w) as [r w'].
    cbn [List.length]. rewrite IH. reflexivity.
Qed.





End BatchFacts.

(** ** C4: failure isolation in a batch *)



(** ** C3: the scope of the accumulators *)

(** C3 as stated fails: after a first batch of one accepted order, a second
    batch of one accepted order returns two confirmations, the first of them
    from the first batch. *)
Lemma second_batch_returns_first_batch_outcomes :
  ~ per_call_scoped (TestDouble.client TestDouble.exchange) (init tt)
      [TestDouble.btc_row] [TestDouble.ada_row].
Proof.
  intro H.
  specialize (H _ _ _ _ eq_refl eq_refl).
  vm_compute in H. discriminate H.
Qed.

Example second_batch_result :
  let '(_, self1) :=
    iterate_orders_df (TestDouble.client TestDouble.exchange)
      [TestDouble.btc_row] (init tt) in
  fst (iterate_orders_df (TestDouble.client TestDouble.exchange)
         [TestDouble.ada_row] self1) =
  Ret ([TestDouble.confirmation (row_params TestDouble.btc_row);
        TestDouble.confirmation (row_params TestDouble.ada_row)], []).
Proof. vm_compute. reflexivity. Qed.

(** C3 (as amended): the accumulators belong to the instance.  Of two
    successive non-empty batches on one instance both return, and the result
    of the second is the result of the first followed by the outcomes of the
    second batch's own requests; an empty batch returns two empty lists and
    leaves the instance as it is. *)
Theorem batch_results_accumulate {World : Type} (client : Client World)
    (self : Binance World) (rows1 rows2 : list OrderRow) :
  rows1 <> [] -> rows2 <> [] ->
  (exists (r1 r2 : list json * list failed_order) (self1 self2 : Binance World),
     iterate_orders_df client rows1 self = (Ret r1, self1) /\
     iterate_orders_df client rows2 self1 = (Ret r2, self2) /\
     r2 = ((fst r1 ++ accepted (answers client rows2 (world self1)))%list,
           (snd r1 ++ rejected rows2 (answers client rows2 (world self1)))%list)) /\
  iterate_orders_df client [] self = (Ret ([], []), self).
Proof.
  intros N1 N2. split; [| reflexivity].
  destruct (iterate_orders_df_nonempty client rows1 self N1) as [self1 [E1 [S1 [F1 _]]]].
  destruct (iterate_orders_df_nonempty client rows2 self1 N2) as [self2 [E2 _]].
  do 4 eexists. split; [exact E1 |]. split; [exact E2 |].
  cbn [fst snd]. rewrite S1, F1. reflexivity.
Qed.

Lemma batch_results_accumulate_witness :
  (exists (r1 r2 : list json * list failed_order) (self1 self2 : Binance unit),
     iterate_orders_df (TestDouble.client TestDouble.exchange)
       [TestDouble.btc_row; TestDouble.eth_row] (init tt) = (Ret r1, self1) /\
     iterate_orders_df (TestDouble.client TestDouble.exchange)
       [TestDouble.ada_row] self1 = (Ret r2, self2) /\
     r2 = ((fst r1 ++ accepted (answers (TestDouble.client TestDouble.exchange)
                                  [TestDouble.ada_row] (world self1)))%list,
           (snd r1 ++ rejected [TestDouble.ada_row]
                        (answers (TestDouble.client TestDouble.exchange)
                           [TestDouble.ada_row] (world self1)))%list)) /\
  iterate_orders_df (TestDouble.client TestDouble.exchange) [] (init tt)
    = (Ret ([], []), init tt).
Proof.
  apply (batch_results_accumulate (TestDouble.client TestDouble.exchange) (init tt)
           [TestDouble.btc_row; TestDouble.eth_row] [TestDouble.ada_row]);
    discriminate.
Defined.

(** ** The futures order path *)

Section Futures.

Context {World : Type} (client : Client World).

(** The path of [place_futures_order] for a quantity in contracts, up to
    the rounding: the symbol is resolved and no other gateway call is made. *)
Lemma place_futures_order_contracts symbol side quantity price order_type
    quantity_type (self : Binance World) (symbols : list SymbolInfo)
    (info : SymbolInfo) (w : World) :
  futures_exchange_info client (world self) = (Ok symbols, w) ->
  find (fun i => (info_symbol i =? PyStr.upper symbol)%string) symbols = Some info ->
  PyStr.upper quantity_type <> "USD"%string ->
  place_futures_order client symbol side quantity price order_type quantity_type self =
    match round_to_precision quantity (stepSize info) with
    | Raise e => (Raise e, after_call FuturesExchangeInfo w self)
    | Ret quantity' =>
        match round_price price (tickSize info) with
        | Raise e => (Raise e, after_call FuturesExchangeInfo w self)
        | Ret price' =>
            let params := futures_params symbol side quantity' price' order_type in
            match futures_create_order client params w with
            | (Ok order, w') =>
                (Ret (Some order),
                 after_send (MsgFuturesOrderPlaced order)
                   (after_success order
                      (after_call (FuturesCreateOrder params) w'
                         (after_call FuturesExchangeInfo w self))))
            | (ApiError str_e, w') =>
                (Ret None,
                 after_send (MsgFuturesOrderFailed symbol side str_e)
                   (after_failure
                      (FailedFuturesOrder symbol side quantity' price' str_e)
                      (after_call (FuturesCreateOrder params) w'
                         (after_call FuturesExchangeInfo w self))))
            end
        end
    end.
Proof.
  intros Hinfo Hfind Hqt. apply String.eqb_neq in Hqt.
  unfold place_futures_order, try_api_then at 1, gateway at 1.
  rewrite Hinfo, Hfind, Hqt.
  unfold try_api_then at 1, ret at 1, bind at 1, lift at 1.
  destruct (round_to_precision quantity (stepSize info)) as [quantity' | e];
    [| reflexivity].
  unfold bind at 1, lift at 1.
  destruct (round_price price (tickSize info)) as [price' | e]; [| reflexivity].
  unfold try_api_then, gateway. cbn [world after_call].
  destruct (futures_create_order client
              (futures_params symbol side quantity' price' order_type) w)
    as [[order | str_e] w']; reflexivity.
Qed.

End Futures.

(** ** C7: a zero step or tick size *)

Lemma round_to_precision_zero_step (value step : Q) :
  step == 0 ->
  round_to_precision value step = Raise (ZeroDivisionError "float floor division by zero").
Proof.
  intro H. unfold round_to_precision, PyFloat.floordiv.
  apply Qeq_bool_iff in H. rewrite H. reflexivity.
Qed.

(** C7 as stated fails: on an instrument whose step size is zero the order
    placement raises the division by zero of the floor-to-multiple
    computation. *)
Lemma zero_step_divides_by_zero :
  fst (place_futures_order (TestDouble.client TestDouble.zero_filters)
         "NOSTEPUSDT" "BUY" 1 None "MARKET" "CONTRACTS" (init tt))
    = Raise (ZeroDivisionError "float floor division by zero") /\
  ~ fails_without_dividing
      (fst (place_futures_order (TestDouble.client TestDouble.zero_filters)
              "NOSTEPUSDT" "BUY" 1 None "MARKET" "CONTRACTS" (init tt))).
Proof.
  split; [vm_compute; reflexivity |].
  intros [e [E N]]. vm_compute in E. injection E as <-.
  exact (N _ eq_refl).
Qed.

(** A zero tick size goes unnoticed when the order carries no price. *)
Example zero_tick_without_price :
  fst (place_futures_order (TestDouble.client TestDouble.zero_filters)
         "NOTICKUSDT" "BUY" 1 None "MARKET" "CONTRACTS" (init tt))
    = Ret (Some (TestDouble.confirmation
                   (futures_params "NOTICKUSDT" "BUY" 1 None "MARKET"))).
Proof. vm_compute. reflexivity. Qed.

(** C7 (as amended): there is no check of the filters.  For a quantity in
    contracts on a resolved instrument, a zero step size, or a zero tick size
    met with a non-zero price after the quantity was rounded, makes the
    floor-to-multiple computation raise [ZeroDivisionError]; the exception
    leaves [place_futures_order] and no order is submitted. *)
Theorem zero_filter_raises_zero_division {World : Type} (client : Client World)
    (symbol side : string) (quantity : Q) (price : option Q)
    (order_type quantity_type : string) (self : Binance World)
    (symbols : list SymbolInfo) (info : SymbolInfo) (w : World) :
  futures_exchange_info client (world self) = (Ok symbols, w) ->
  find (fun i => (info_symbol i =? PyStr.upper symbol)%string) symbols = Some info ->
  PyStr.upper quantity_type <> "USD"%string ->
  stepSize info == 0 \/
  (tickSize info == 0 /\ PyFloat.truthy_opt price = true /\
   exists quantity' : Q, round_to_precision quantity (stepSize info) = Ret quantity') ->
  place_futures_order client symbol side quantity price order_type quantity_type self =
    (Raise (ZeroDivisionError "float floor division by zero"),
     after_call FuturesExchangeInfo w self).
Proof.
  intros Hinfo Hfind Hqt Hzero.
  rewrite (place_futures_order_contracts client symbol side quantity price order_type
             quantity_type self symbols info w Hinfo Hfind Hqt).
  destruct Hzero as [Hs | [Ht [Hp [quantity' Hq]]]].
  - rewrite (round_to_precision_zero_step quantity (stepSize info) Hs). reflexivity.
  - rewrite Hq. destruct price as [p |]; [| discriminate Hp].
    cbn [PyFloat.truthy_opt] in Hp. unfold round_price. rewrite Hp.
    rewrite (round_to_precision_zero_step p (tickSize info) Ht). reflexivity.
Qed.

Lemma zero_filter_raises_zero_division_witness :
  place_futures_order (TestDouble.client TestDouble.zero_filters)
    "notickusdt" "BUY" (5 # 4) (Some 100) "LIMIT" "CONTRACTS" (init tt) =
  (Raise (ZeroDivisionError "float floor division by zero"),
   after_call FuturesExchangeInfo tt (init tt)).
Proof.
  apply (zero_filter_raises_zero_division (TestDouble.client TestDouble.zero_filters)
           "notickusdt" "BUY" (5 # 4) (Some 100) "LIMIT" "CONTRACTS" (init tt)
           (TestDouble.symbols TestDouble.zero_filters)
           {| info_symbol := "NOTICKUSDT"; stepSize := 1 # 1000; tickSize := 0 |} tt).
  - reflexivity.
  - reflexivity.
  - discriminate.
  - right. split; [reflexivity |]. split; [reflexivity |].
    exists (1250 # 1000). vm_compute. reflexivity.
Defined.

(** ** C8: leverage values *)

(** C8 as stated fails: [change_leverage(symbol, -1)] sends the request to
    the gateway, and the failure it returns is the gateway's. *)
Lemma negative_leverage_reaches_gateway :
  calls (snd (change_leverage (TestDouble.client TestDouble.exchange)
                "BTCUSDT" (-1) (init tt)))
    = [FuturesChangeLeverage "BTCUSDT" (-1)] /\
  ~ fails_fast_locally (TestDouble.client TestDouble.exchange) "BTCUSDT" (-1) (init tt).
Proof.
  split; [reflexivity |].
  unfold fails_fast_locally. vm_compute. discriminate.
Qed.

(** C8 (as amended): the leverage is not validated locally.  For every value,
    the non-positive ones included, [change_leverage] makes exactly one gateway
    call, with the symbol and the leverage it was given, and returns the
    response of the gateway, or [None] when the gateway rejects the request;
    either outcome is reported through the notifier. *)
Theorem change_leverage_always_calls_gateway {World : Type} (client : Client World)
    (symbol : string) (leverage : Z) (self : Binance World) :
  calls (snd (change_leverage client symbol leverage self)) =
    (calls self ++ [FuturesChangeLeverage symbol leverage])%list /\
  change_leverage client symbol leverage self =
    match futures_change_leverage client symbol leverage (world self) with
    | (Ok response, w) =>
        (Ret (Some response),
         after_send (MsgLeverageChanged symbol leverage response)
           (after_call (FuturesChangeLeverage symbol leverage) w self))
    | (ApiError str_e, w) =>
        (Ret None,
         after_send (MsgLeverageFailed symbol leverage str_e)
           (after_call (FuturesChangeLeverage symbol leverage) w self))
    end.
Proof.
  unfold change_leverage, try_api, bind, gateway.
  destruct (futures_change_leverage client symbol leverage (world self))
    as [[response | str_e] w]; split; reflexivity.
Qed.

(** ** C9: what a failure record carries *)

(** C9 (the code at the failing input): a futures order of 1.75 contracts on
    an instrument of step 1 is rounded to 1 before it is sent; when the gateway
    rejects it, the failure record holds the symbol and side of the caller but
    the rounded quantity 1, not the 1.75 that was asked for. *)
Theorem futures_failure_records_rounded_quantity :
  let '(r, self) :=
    place_futures_order (TestDouble.client TestDouble.rejecting)
      "adausdt" "buy" (7 # 4) None "MARKET" "CONTRACTS" (init tt) in
  r = Ret None /\
  failed_orders self =
    [FailedFuturesOrder "adausdt" "buy" 1 None TestDouble.no_margin] /\
  ~ 1 == 7 # 4.
Proof. vm_compute. repeat split. discriminate. Qed.

(** The spot path keeps the request as the caller gave it. *)
Example spot_failure_records_request :
  failed_orders (snd (place_order (TestDouble.client TestDouble.rejecting)
                        "adausdt" "buy" (7 # 4) (2 # 5) "LIMIT" (init tt)))
    = [FailedOrder "adausdt" "buy" (7 # 4) (2 # 5) TestDouble.no_margin].
Proof. reflexivity. Qed.

(** * Further properties of the order management code *)

(** ** Rounding to the precision of a decimal step (lines 94 and 96) *)











(** X5: a negative step passes the floor division and makes [math.log10]
    raise [ValueError]; nothing is rounded. *)
Theorem round_to_precision_negative_step (value step : Q) :
  step < 0 ->
  round_to_precision value step = Raise (ValueError "math domain error").
Proof.
  intro N. unfold round_to_precision, PyFloat.floordiv, PyFloat.round_log10.
  assert (Z0 : Qeq_bool step 0 = false).
  { destruct (Qeq_bool step 0) eqn:E; [| reflexivity].
    apply Qeq_bool_iff in E. rewrite E in N. discriminate N. }
  assert (L : Qle_bool step 0 = true).
  { apply Qle_bool_iff. apply Qlt_le_weak. exact N. }
  rewrite Z0. cbn [rbind]. rewrite L. reflexivity.
Qed.

Lemma round_to_precision_negative_step_witness :
  round_to_precision (5 # 4) (-1 # 100) = Raise (ValueError "math domain error").
Proof. apply round_to_precision_negative_step. reflexivity. Defined.

(** A price that is absent or zero is left as it is, whatever the tick size. *)
Lemma falsy_price_is_not_rounded (price : option Q) (tick_size : Q) :
  PyFloat.truthy_opt price = false ->
  round_price price tick_size = Ret price.
Proof.
  intro F. destruct price as [p |]; [| reflexivity].
  cbn [PyFloat.truthy_opt] in F. unfold round_price. rewrite F. reflexivity.
Qed.

(** ** The futures order path, all outcomes (lines 77-127) *)

Lemma find_none_when_unlisted (symbol : string) (symbols : list SymbolInfo) :
  (forall info : SymbolInfo, In info symbols -> info_symbol info <> PyStr.upper symbol) ->
  find (fun info => (info_symbol info =? PyStr.upper symbol)%string) symbols = None.
Proof.
  intro H. induction symbols as [| info rest IH]; [reflexivity |].
  cbn [find].
  destruct (info_symbol info =? PyStr.upper symbol)%string eqn:E.
  - apply String.eqb_eq in E. exfalso. apply (H info); [left; reflexivity | exact E].
  - apply IH. intros i Hi. apply H. right. exact Hi.
Qed.

(** X6: when the exchange lists no instrument under the upper-cased symbol,
    [place_futures_order] raises [ValueError] naming the symbol as the caller
    wrote it; the exchange-info query is the only gateway call, and neither
    accumulator nor the notifier is touched. *)
Theorem unknown_symbol_raises_value_error {World : Type} (client : Client World)
    (symbol side : string) (quantity : Q) (price : option Q)
    (order_type quantity_type : string) (self : Binance World)
    (symbols : list SymbolInfo) (w : World) :
  futures_exchange_info client (world self) = (Ok symbols, w) ->
  (forall info : SymbolInfo, In info symbols -> info_symbol info <> PyStr.upper symbol) ->
  place_futures_order client symbol side quantity price order_type quantity_type self =
    (Raise (ValueError ("Symbol " ++ symbol ++ " not found in exchange info.")),
     after_call FuturesExchangeInfo w self).
Proof.
  intros Hinfo Hnone.
  unfold place_futures_order, try_api_then at 1, gateway at 1.
  rewrite Hinfo, (find_none_when_unlisted symbol symbols Hnone). reflexivity.
Qed.

Lemma unknown_symbol_raises_value_error_witness :
  place_futures_order (TestDouble.client TestDouble.exchange)
    "dogeusdt" "BUY" 1 None "MARKET" "CONTRACTS" (init tt) =
  (Raise (ValueError ("Symbol " ++ "dogeusdt" ++ " not found in exchange info.")),
   after_call FuturesExchangeInfo tt (init tt)).
Proof.
  apply (unknown_symbol_raises_value_error (TestDouble.client TestDouble.exchange)
           "dogeusdt" "BUY" 1 None "MARKET" "CONTRACTS" (init tt) TestDouble.filters tt).
  - reflexivity.
  - intros info [<- | [<- | [<- | []]]]; discriminate.
Defined.

(** The path of [place_futures_order] for a quantity in USD, up to the
    conversion: the symbol is resolved, the mark price is asked for, and the
    quantity is divided by it. *)
Lemma place_futures_order_usd {World : Type} (client : Client World)
    symbol side quantity price order_type quantity_type (self : Binance World)
    (symbols : list SymbolInfo) (info : SymbolInfo) (w : World) :
  futures_exchange_info client (world self) = (Ok symbols, w) ->
  find (fun i => (info_symbol i =? PyStr.upper symbol)%string) symbols = Some info ->
  PyStr.upper quantity_type = "USD"%string ->
  place_futures_order client symbol side quantity price order_type quantity_type self =
    match futures_mark_price client symbol w with
    | (ApiError str_e, w1) =>
        (Ret None,
         after_send (MsgFuturesOrderFailed symbol side str_e)
           (after_failure (FailedFuturesOrder symbol side quantity price str_e)
              (after_call (FuturesMarkPrice symbol) w1
                 (after_call FuturesExchangeInfo w self))))
    | (Ok mark_price, w1) =>
        let self1 := after_call (FuturesMarkPrice symbol) w1
                       (after_call FuturesExchangeInfo w self) in
        match PyFloat.truediv quantity mark_price with
        | Raise e => (Raise e, self1)
        | Ret contracts =>
            match round_to_precision contracts (stepSize info) with
            | Raise e => (Raise e, self1)
            | Ret quantity' =>
                match round_price price (tickSize info) with
                | Raise e => (Raise e, self1)
                | Ret price' =>
                    let params := futures_params symbol side quantity' price' order_type in
                    match futures_create_order client params w1 with
                    | (Ok order, w') =>
                        (Ret (Some order),
                         after_send (MsgFuturesOrderPlaced order)
                           (after_success order
                              (after_call (FuturesCreateOrder params) w' self1)))
                    | (ApiError str_e, w') =>
                        (Ret None,
                         after_send (MsgFuturesOrderFailed symbol side str_e)
                           (after_failure
                              (FailedFuturesOrder symbol side quantity' price' str_e)
                              (after_call (FuturesCreateOrder params) w' self1)))
                    end
                end
            end
        end
    end.
Proof.
  intros Hinfo Hfind Hqt.
  unfold place_futures_order, try_api_then at 1, gateway at 1.
  rewrite Hinfo, Hfind, Hqt. change ("USD" =? "USD")%string with true. cbv iota.
  unfold try_api_then at 1, bind at 1, gateway at 1. cbn [world after_call].
  destruct (futures_mark_price client symbol w) as [[mark_price | str_e] w1];
    [| reflexivity].
  unfold lift at 1, PyFloat.truediv.
  destruct (Qeq_bool mark_price 0); [reflexivity |].
  unfold bind at 1, lift at 1.
  destruct (round_to_precision (quantity / mark_price) (stepSize info))
    as [quantity' | e]; [| reflexivity].
  unfold bind at 1, lift at 1.
  destruct (round_price price (tickSize info)) as [price' | e]; [| reflexivity].
  unfold try_api_then, gateway. cbn [world after_call].
  destruct (futures_create_order client
              (futures_params symbol side quantity' price' order_type) w1)
    as [[order | str_e] w']; reflexivity.
Qed.

Lemma submissions_app (cs1 cs2 : list call) :
  submissions (cs1 ++ cs2) = (submissions cs1 + submissions cs2)%nat.
Proof. unfold submissions. rewrite filter_app, List.length_app. reflexivity. Qed.

Lemma place_futures_order_info_error {World : Type} (client : Client World)
    symbol side quantity price order_type quantity_type (self : Binance World)
    (str_e : string) (w : World) :
  futures_exchange_info client (world self) = (ApiError str_e, w) ->
  place_futures_order client symbol side quantity price order_type quantity_type self =
    (Ret None,
     after_send (MsgFuturesOrderFailed symbol side str_e)
       (after_failure (FailedFuturesOrder symbol side quantity price str_e)
          (after_call FuturesExchangeInfo w self))).
Proof.
  intro Hinfo. unfold place_futures_order, try_api_then at 1, gateway at 1.
  rewrite Hinfo. reflexivity.
Qed.

Lemma place_futures_order_unlisted {World : Type} (client : Client World)
    symbol side quantity price order_type quantity_type (self : Binance World)
    (symbols : list SymbolInfo) (w : World) :
  futures_exchange_info client (world self) = (Ok symbols, w) ->
  find (fun i => (info_symbol i =? PyStr.upper symbol)%string) symbols = None ->
  place_futures_order client symbol side quantity price order_type quantity_type self =
    (Raise (ValueError ("Symbol " ++ symbol ++ " not found in exchange info.")),
     after_call FuturesExchangeInfo w self).
Proof.
  intros Hinfo Hfind. unfold place_futures_order, try_api_then at 1, gateway at 1.
  rewrite Hinfo, Hfind. reflexivity.
Qed.

(** The arithmetic of the order path raises no gateway error. *)
Lemma round_to_precision_raises_no_api_error (value step : Q) (e : exn) :
  round_to_precision value step = Raise e ->
  forall str_e : string, e <> BinanceAPIException str_e.
Proof.
  unfold round_to_precision, PyFloat.floordiv, PyFloat.round_log10.
  destruct (Qeq_bool step 0); cbn [rbind].
  - intros [= <-] str_e. discriminate.
  - destruct (Qle_bool step 0); cbn [rbind]; [| discriminate].
    intros [= <-] str_e. discriminate.
Qed.

Lemma round_price_raises_no_api_error (price : option Q) (tick_size : Q) (e : exn) :
  round_price price tick_size = Raise e ->
  forall str_e : string, e <> BinanceAPIException str_e.
Proof.
  unfold round_price. destruct price as [p |]; [| discriminate].
  destruct (PyFloat.truthy p); [| discriminate].
  destruct (round_to_precision p tick_size) as [p' | e'] eqn:R; cbn [rbind];
    [discriminate |].
  intros [= <-]. exact (round_to_precision_raises_no_api_error p tick_size e' R).
Qed.

(** X7: a gateway error that comes before the order is submitted, from the
    exchange-info query or, for a quantity in USD, from the mark-price query,
    is not raised: [place_futures_order] returns [None], records a failure
    holding the symbol, side, quantity and price exactly as the caller passed
    them, and submits no order. *)
Theorem early_gateway_error_records_the_request {World : Type} (client : Client World)
    (symbol side : string) (quantity : Q) (price : option Q)
    (order_type quantity_type : string) (self : Binance World) (str_e : string) :
  (exists w : World, futures_exchange_info client (world self) = (ApiError str_e, w)) \/
  (exists (symbols : list SymbolInfo) (info : SymbolInfo) (w w1 : World),
     futures_exchange_info client (world self) = (Ok symbols, w) /\
     find (fun i => (info_symbol i =? PyStr.upper symbol)%string) symbols = Some info /\
     PyStr.upper quantity_type = "USD"%string /\
     futures_mark_price client symbol w = (ApiError str_e, w1)) ->
  exists self' : Binance World,
    place_futures_order client symbol side quantity price order_type quantity_type self
      = (Ret None, self') /\
    failed_orders self' =
      (failed_orders self ++ [FailedFuturesOrder symbol side quantity price str_e])%list /\
    successful_orders self' = successful_orders self /\
    submissions (calls self') = submissions (calls self).
Proof.
  intros [[w Hinfo] | [symbols [info [w [w1 [Hinfo [Hfind [Hqt Hmark]]]]]]]].
  - rewrite (place_futures_order_info_error client _ _ _ _ _ _ self str_e w Hinfo).
    eexists. split; [reflexivity |].
    cbn [calls failed_orders successful_orders after_send after_failure after_call].
    repeat split. rewrite submissions_app.
    change (submissions [FuturesExchangeInfo]) with 0%nat. lia.
  - rewrite (place_futures_order_usd client _ _ _ _ _ _ self symbols info w
               Hinfo Hfind Hqt), Hmark.
    eexists. split; [reflexivity |].
    cbn [calls failed_orders successful_orders after_send after_failure after_call].
    repeat split. rewrite !submissions_app.
    change (submissions [FuturesExchangeInfo]) with 0%nat.
    change (submissions [FuturesMarkPrice symbol]) with 0%nat. lia.
Qed.

Lemma early_gateway_error_records_the_request_witness :
  exists self' : Binance unit,
    place_futures_order (TestDouble.client TestDoubleMore.unquoted_listed)
      "xyzusdt" "buy" 250 (Some (5 # 4)) "LIMIT" "usd" (init tt) = (Ret None, self') /\
    failed_orders self' =
      (failed_orders (init tt) ++
         [FailedFuturesOrder "xyzusdt" "buy" 250 (Some (5 # 4))
            "APIError(code=-1121): Invalid symbol."])%list /\
    successful_orders self' = successful_orders (init tt) /\
    submissions (calls self') = submissions (calls (init tt)).
Proof.
  apply (early_gateway_error_records_the_request (TestDouble.client TestDoubleMore.unquoted_listed)).
  right.
  exists (TestDouble.symbols TestDoubleMore.unquoted_listed),
    {| info_symbol := "XYZUSDT"; stepSize := 1; tickSize := 1 # 100 |}, tt, tt.
  repeat split.
Defined.







(** X10: when the mark price comes back as zero, the conversion of a USD
    quantity raises [ZeroDivisionError]; the exception leaves
    [place_futures_order], no order is submitted and nothing is recorded. *)
Theorem zero_mark_price_raises_zero_division {World : Type} (client : Client World)
    (symbol side : string) (quantity : Q) (price : option Q)
    (order_type quantity_type : string) (self : Binance World)
    (symbols : list SymbolInfo) (info : SymbolInfo) (w w1 : World) (mark_price : Q) :
  futures_exchange_info client (world self) = (Ok symbols, w) ->
  find (fun i => (info_symbol i =? PyStr.upper symbol)%string) symbols = Some info ->
  PyStr.upper quantity_type = "USD"%string ->
  futures_mark_price client symbol w = (Ok mark_price, w1) ->
  mark_price == 0 ->
  place_futures_order client symbol side quantity price order_type quantity_type self =
    (Raise (ZeroDivisionError "float division by zero"),
     after_call (FuturesMarkPrice symbol) w1 (after_call FuturesExchangeInfo w self)).
Proof.
  intros Hinfo Hfind Hqt Hmark Hzero.
  rewrite (place_futures_order_usd client symbol side quantity price order_type
             quantity_type self symbols info w Hinfo Hfind Hqt), Hmark.
  unfold PyFloat.truediv. apply Qeq_bool_iff in Hzero. rewrite Hzero. reflexivity.
Qed.

Lemma zero_mark_price_raises_zero_division_witness :
  place_futures_order (TestDouble.client TestDoubleMore.unpriced)
    "BTCUSDT" "BUY" 100 None "MARKET" "USD" (init tt) =
  (Raise (ZeroDivisionError "float division by zero"),
   after_call (FuturesMarkPrice "BTCUSDT") tt (after_call FuturesExchangeInfo tt (init tt))).
Proof.
  apply (zero_mark_price_raises_zero_division (TestDouble.client TestDoubleMore.unpriced)
           "BTCUSDT" "BUY" 100 None "MARKET" "USD" (init tt) TestDouble.filters
           {| info_symbol := "BTCUSDT"; stepSize := 1 # 1000; tickSize := 1 # 10 |}
           tt tt 0); reflexivity.
Defined.

Ltac trace_extends :=
  cbn [snd calls after_send after_success after_failure after_call];
  rewrite <- ?app_assoc; reflexivity.

Ltac count_submissions :=
  unfold submissions; cbn [filter is_submission app List.length]; lia.

Ltac outcome_leaf :=
  eexists; split; [trace_extends |];
  cbn [fst snd successful_orders failed_orders after_send after_success after_failure
         after_call];
  repeat match goal with
         | |- _ /\ _ => split
         | |- submissions _ = _ => count_submissions
         | |- (submissions _ <= _)%nat => count_submissions
         | |- exists f : failed_order, _ => eexists; reflexivity
         | |- _ = _ => reflexivity
         | |- forall str_e : string, _ <> _ => intro; discriminate
         end.

(** X11: whatever the gateway answers, one call of [place_futures_order]
    submits at most one order (there is no retry) and ends in one of three
    ways.  It returns the confirmation, after submitting one order, and that
    confirmation is the one entry added to [successful_orders]; or it returns
    [None] and exactly one failure is added to [failed_orders]; or it raises an
    exception that is not a gateway error, before any order is submitted
    and with both accumulators as they were. *)
Theorem futures_order_outcomes {World : Type} (client : Client World)
    (symbol side : string) (quantity : Q) (price : option Q)
    (order_type quantity_type : string) (self : Binance World) :
  exists new : list call,
    calls (snd (place_futures_order client symbol side quantity price order_type
                  quantity_type self)) = (calls self ++ new)%list /\
    match fst (place_futures_order client symbol side quantity price order_type
                 quantity_type self) with
    | Ret (Some order) =>
        submissions new = 1%nat /\
        successful_orders (snd (place_futures_order client symbol side quantity price
                                  order_type quantity_type self))
          = (successful_orders self ++ [order])%list /\
        failed_orders (snd (place_futures_order client symbol side quantity price
                              order_type quantity_type self))
          = failed_orders self
    | Ret None =>
        (submissions new <= 1)%nat /\
        successful_orders (snd (place_futures_order client symbol side quantity price
                                  order_type quantity_type self))
          = successful_orders self /\
        exists f : failed_order,
          failed_orders (snd (place_futures_order client symbol side quantity price
                                order_type quantity_type self))
            = (failed_orders self ++ [f])%list
    | Raise e =>
        submissions new = 0%nat /\
        successful_orders (snd (place_futures_order client symbol side quantity price
                                  order_type quantity_type self))
          = successful_orders self /\
        failed_orders (snd (place_futures_order client symbol side quantity price
                              order_type quantity_type self))
          = failed_orders self /\
        forall str_e : string, e <> BinanceAPIException str_e
    end.
Proof.
  destruct (futures_exchange_info client (world self)) as [[symbols | str_e] w] eqn:Hinfo.
  2: { rewrite (place_futures_order_info_error client _ _ _ _ _ _ self str_e w Hinfo).
       outcome_leaf. }
  destruct (find (fun i => (info_symbol i =? PyStr.upper symbol)%string) symbols)
    as [info |] eqn:Hfind.
  2: { rewrite (place_futures_order_unlisted client _ _ _ _ _ _ self symbols w Hinfo Hfind).
       outcome_leaf. }
  destruct (String.eqb_spec (PyStr.upper quantity_type) "USD") as [Hqt | Hqt].
  - rewrite (place_futures_order_usd client _ _ _ _ _ _ self symbols info w
               Hinfo Hfind Hqt).
    destruct (futures_mark_price client symbol w) as [[mark_price | str_e] w1];
      [| outcome_leaf].
    unfold PyFloat.truediv. destruct (Qeq_bool mark_price 0); [outcome_leaf |].
    cbv zeta.
    destruct (round_to_precision (quantity / mark_price) (stepSize info))
      as [quantity' | e] eqn:Rq.
    2: { pose proof (round_to_precision_raises_no_api_error _ _ _ Rq). outcome_leaf.
         assumption. }
    destruct (round_price price (tickSize info)) as [price' | e] eqn:Rp.
    2: { pose proof (round_price_raises_no_api_error _ _ _ Rp). outcome_leaf.
         assumption. }
    destruct (futures_create_order client
                (futures_params symbol side quantity' price' order_type) w1)
      as [[order | str_e] w']; outcome_leaf.
  - rewrite (place_futures_order_contracts client _ _ _ _ _ _ self symbols info w
               Hinfo Hfind Hqt).
    destruct (round_to_precision quantity (stepSize info)) as [quantity' | e] eqn:Rq.
    2: { pose proof (round_to_precision_raises_no_api_error _ _ _ Rq). outcome_leaf.
         assumption. }
    destruct (round_price price (tickSize info)) as [price' | e] eqn:Rp.
    2: { pose proof (round_price_raises_no_api_error _ _ _ Rp). outcome_leaf.
         assumption. }
    cbv zeta.
    destruct (futures_create_order client
                (futures_params symbol side quantity' price' order_type) w)
      as [[order | str_e] w']; outcome_leaf.
Qed.

(** ** The spot order path and the batch (lines 33-75) *)

Section BatchMore.

Context {World : Type} (client : Client World).

(** X12: [place_order] never raises on a gateway rejection and never
    retries: it returns after exactly one request to the gateway, one
    notification, and one new entry in exactly one of the two accumulators. *)
Theorem place_order_records_one_outcome (symbol side : string) (size price : Q)
    (order_type : string) (self : Binance World) :
  exists self' : Binance World,
    place_order client symbol side size price order_type self = (Ret tt, self') /\
    calls self' =
      (calls self ++ [CreateOrder (spot_params symbol side size price order_type)])%list /\
    (List.length (successful_orders self') + List.length (failed_orders self') =
     List.length (successful_orders self) + List.length (failed_orders self) + 1)%nat /\
    List.length (telegram self') = (List.length (telegram self) + 1)%nat.
Proof.
  destruct (create_order client (spot_params symbol side size price order_type)
              (world self)) as [[order | str_e] w] eqn:H.
  - rewrite (place_order_accepted client _ _ _ _ _ self order w H).
    eexists. split; [reflexivity |].
    cbn [calls successful_orders failed_orders telegram after_send after_success after_call].
    rewrite !List.length_app. cbn [List.length]. repeat split; lia.
  - rewrite (place_order_rejected client _ _ _ _ _ self str_e w H).
    eexists. split; [reflexivity |].
    cbn [calls successful_orders failed_orders telegram after_send after_failure after_call].
    rewrite !List.length_app. cbn [List.length]. repeat split; lia.
Qed.

Lemma outcomes_length (rows : list OrderRow) :
  forall rs : list (reply json),
    List.length rs = List.length rows ->
    (List.length (accepted rs) + List.length (rejected rows rs) = List.length rows)%nat.
Proof.
  induction rows as [| row rest IH]; intros [| [order | str_e] rs] L;
    cbn in L; try discriminate; cbn [accepted rejected List.length].
  - reflexivity.
  - rewrite <- (IH rs) by lia. lia.
  - rewrite <- (IH rs) by lia. lia.
Qed.

(** X13: a non-empty batch of [N] rows returns, whatever the gateway answers,
    after [N] requests, and its two result lists hold [N] entries more than the
    accumulators held before: every row ends as one success or one failure. *)
Theorem batch_records_every_row (rows : list OrderRow) (self : Binance World) :
  rows <> [] ->
  exists (successes : list json) (failures : list failed_order) (self' : Binance World),
    iterate_orders_df client rows self = (Ret (successes, failures), self') /\
    (List.length successes + List.length failures =
     List.length (successful_orders self) + List.length (failed_orders self)
       + List.length rows)%nat /\
    submissions (calls self') = (submissions (calls self) + List.length rows)%nat.
Proof.
  intro N.
  destruct (iterate_orders_df_nonempty client rows self N) as [self' [E [_ [_ C]]]].
  do 3 eexists. split; [exact E |]. split.
  - rewrite !List.length_app.
    pose proof (outcomes_length rows (answers client rows (world self))
                  (answers_length client rows (world self))).
    lia.
  - rewrite C, submissions_app. f_equal.
    clear. induction rows as [| row rest IH]; [reflexivity |].
    cbn [map]. change (submissions (CreateOrder (row_params row) :: ?l))
      with (S (submissions l)).
    unfold submissions in *. cbn [filter is_submission List.length]. rewrite IH.
    reflexivity.
Qed.

Lemma for_each_app {A : Type} (body : A -> M unit) (xs ys : list A) :
  forall self : Binance World,
    for_each xs body self =
      (Ret tt, snd (for_each xs body self)) ->
    for_each (xs ++ ys) body self = for_each ys body (snd (for_each xs body self)).
Proof.
  induction xs as [| x xs IH]; intros self H.
  - reflexivity.
  - cbn [app for_each] in *. unfold bind in *.
    destruct (body x self) as [[[] | e] self1].
    + apply IH. exact H.
    + discriminate H.
Qed.

(** X14: batches compose: running one table made of two non-empty tables
    gives the same result, and leaves the instance and the exchange in the
    same state, as running the first table and then the second. *)
Theorem batch_of_concatenation (rows1 rows2 : list OrderRow) (self : Binance World) :
  rows1 <> [] -> rows2 <> [] ->
  iterate_orders_df client (rows1 ++ rows2) self =
    iterate_orders_df client rows2 (snd (iterate_orders_df client rows1 self)).
Proof.
  intros N1 N2.
  pose (body := fun row : OrderRow =>
          place_order client (Symbol row) (Side row) (Size row) (Price row) "MARKET").
  destruct (for_each_place_order client rows1 self) as [self1 [E1 _]].
  assert (I1 : iterate_orders_df client rows1 self =
               (Ret (successful_orders self1, failed_orders self1), self1)).
  { destruct rows1; [contradiction |].
    unfold iterate_orders_df, bind at 1. fold body in E1 |- *. rewrite E1. reflexivity. }
  rewrite I1. cbn [snd].
  assert (A : for_each (rows1 ++ rows2) body self = for_each rows2 body self1).
  { rewrite (for_each_app body rows1 rows2 self).
    - fold body in E1. rewrite E1. reflexivity.
    - fold body in E1. rewrite E1. reflexivity. }
  destruct rows2 as [| r2 rest2]; [contradiction |].
  destruct rows1 as [| r1 rest1]; [contradiction |].
  unfold iterate_orders_df. cbn [app]. unfold bind at 1. unfold bind at 3.
  fold body. change (r1 :: (rest1 ++ r2 :: rest2))%list with ((r1 :: rest1) ++ r2 :: rest2)%list.
  rewrite A. reflexivity.
Qed.

(** X15: the batch sends every row as a market order: the request holds the
    row's symbol as written, its side in upper case and its size, with type
    MARKET and neither price nor time in force, so the Price column never
    reaches the exchange. *)
Theorem batch_sends_market_orders (rows : list OrderRow) (self : Binance World) :
  calls (snd (iterate_orders_df client rows self)) =
    (calls self ++
       map (fun row =>
              CreateOrder {| p_symbol := Symbol row; p_side := PyStr.upper (Side row);
                             p_type := "MARKET"; p_quantity := Size row;
                             p_price := None; p_timeInForce := None;
                             p_reduceOnly := None |}) rows)%list.
Proof.
  destruct rows as [| row rest].
  - cbn. rewrite app_nil_r. reflexivity.
  - destruct (iterate_orders_df_nonempty client (row :: rest) self ltac:(discriminate))
      as [self' [E [_ [_ C]]]].
    rewrite E. cbn [snd]. exact C.
Qed.

End BatchMore.

Lemma batch_records_every_row_witness :
  exists (successes : list json) (failures : list failed_order) (self' : Binance unit),
    iterate_orders_df (TestDouble.client TestDouble.exchange)
      [TestDouble.btc_row; TestDouble.eth_row; TestDouble.ada_row] (init tt)
      = (Ret (successes, failures), self') /\
    (List.length successes + List.length failures =
     List.length (successful_orders (init tt)) + List.length (failed_orders (init tt))
       + List.length [TestDouble.btc_row; TestDouble.eth_row; TestDouble.ada_row])%nat /\
    submissions (calls self') =
      (submissions (calls (init tt))
       + List.length [TestDouble.btc_row; TestDouble.eth_row; TestDouble.ada_row])%nat.
Proof.
  apply (batch_records_every_row (TestDouble.client TestDouble.exchange)).
  discriminate.
Defined.

Lemma batch_of_concatenation_witness :
  iterate_orders_df (TestDouble.client TestDouble.exchange)
    ([TestDouble.btc_row; TestDouble.eth_row] ++ [TestDouble.ada_row]) (init tt) =
  iterate_orders_df (TestDouble.client TestDouble.exchange) [TestDouble.ada_row]
    (snd (iterate_orders_df (TestDouble.client TestDouble.exchange)
            [TestDouble.btc_row; TestDouble.eth_row] (init tt))).
Proof.
  apply (batch_of_concatenation (TestDouble.client TestDouble.exchange)); discriminate.
Defined.

(** ** The position sweep, all positions (lines 186-285) *)

Section SweepMore.

Context {World : Type} (client : Client World).

Variables (quantity : option Q) (quantity_type : string) (percentage : option Q).

Lemma calls_warned symbol position_amt close_quantity (self : Binance World) :
  calls (warned symbol position_amt close_quantity self) = calls self.
Proof. unfold warned. destruct (Qlt_bool _ _); reflexivity. Qed.

(** The inner [try] submits exactly one order, the reduce-only close order,
    and files the position in exactly one list. *)
Lemma close_one_effect symbol side position_amt notional_value close_quantity
    (acc : closes) (self : Binance World) :
  exists (acc' : closes) (self' : Binance World),
    close_one client symbol side position_amt notional_value close_quantity acc self
      = (Ret acc', self') /\
    calls self' =
      (calls self ++ [FuturesCreateOrder (close_params symbol side close_quantity)])%list /\
    total_closes acc' = S (total_closes acc).
Proof.
  destruct (futures_create_order client (close_params symbol side close_quantity)
              (world self)) as [[order | str_e] w] eqn:H.
  - destruct acc as [[s f] u].
    rewrite (close_one_accepted client _ _ _ _ _ s f u self order w H).
    do 2 eexists. split; [reflexivity |].
    cbn [calls after_send after_call]. rewrite calls_warned. split; [reflexivity |].
    cbn [total_closes]. rewrite List.length_app. cbn [List.length]. lia.
  - rewrite (close_one_rejected client _ _ _ _ _ acc self str_e w H).
    do 2 eexists. split; [reflexivity |].
    cbn [calls after_send after_call]. rewrite calls_warned. split; [reflexivity |].
    destruct acc as [[s f] u]. unfold classify.
    destruct (PyStr.contains "notional must be no smaller than 5" str_e);
      cbn [total_closes]; rewrite List.length_app; cbn [List.length]; lia.
Qed.

(** X16: positions whose amount is zero are skipped without any effect: the
    loop behaves on a list of positions as on the open positions among them,
    with the same result, the same gateway calls and the same notifications. *)
Theorem zero_positions_are_skipped (positions : list Position) (acc : closes)
    (self : Binance World) :
  close_loop client positions quantity quantity_type percentage acc self =
  close_loop client (filter is_open positions) quantity quantity_type percentage acc self.
Proof.
  revert acc self.
  induction positions as [| position rest IH]; intros acc self; [reflexivity |].
  cbn [filter]. unfold is_open at 1.
  destruct (Qeq_bool (positionAmt position) 0) eqn:E; cbn [negb].
  - cbn [close_loop]. rewrite E. apply IH.
  - cbn [close_loop]. rewrite E. unfold bind.
    destruct (gateway (FuturesMarkPrice (pos_symbol position))
                (futures_mark_price client (pos_symbol position)) self)
      as [[mark_price | e] self1]; [| reflexivity].
    destruct (lift (close_quantity_of (positionAmt position) mark_price quantity
                      quantity_type percentage) self1)
      as [[close_quantity | e] self2]; [| reflexivity].
    destruct (close_one client (pos_symbol position) (closing_side (positionAmt position))
                (positionAmt position) (Qabs (positionAmt position * mark_price))
                close_quantity acc self2) as [[acc' | e] self3]; [| reflexivity].
    apply IH.
Qed.

(** Every position the loop gets through is filed exactly once. *)
Lemma close_loop_files_each_position (positions : list Position) :
  forall (acc acc' : closes) (self self' : Binance World),
    close_loop client positions quantity quantity_type percentage acc self
      = (Ret acc', self') ->
    total_closes acc' = (total_closes acc + List.length (filter is_open positions))%nat.
Proof.
  induction positions as [| position rest IH]; intros acc acc' self self' H.
  - cbn in H. injection H as <- _. cbn. lia.
  - cbn [close_loop filter] in *. unfold is_open at 1.
    destruct (Qeq_bool (positionAmt position) 0) eqn:E; cbn [negb].
    + apply (IH _ _ _ _ H).
    + unfold bind in H.
      destruct (gateway (FuturesMarkPrice (pos_symbol position))
                  (futures_mark_price client (pos_symbol position)) self)
        as [[mark_price | e] self1]; [| discriminate H].
      destruct (lift (close_quantity_of (positionAmt position) mark_price quantity
                        quantity_type percentage) self1)
        as [[close_quantity | e] self2]; [| discriminate H].
      destruct (close_one_effect (pos_symbol position) (closing_side (positionAmt position))
                  (positionAmt position) (Qabs (positionAmt position * mark_price))
                  close_quantity acc self2) as [acc1 [self3 [E1 [_ T1]]]].
      rewrite E1 in H. apply IH in H. cbn [List.length]. lia.
Qed.

End SweepMore.

Section SweepOutcomes.

Context {World : Type} (client : Client World).

Variables (quantity : option Q) (quantity_type : string) (percentage : option Q).

(** X17: once the account is fetched, the sweep ends in one of three ways,
    never with a mix of lists and [None].  It returns three lists in which
    every open position that passed the symbol filter is filed exactly once;
    or it returns [(None, None, None)]; or it raises an exception that is not
    a gateway error. *)
Theorem sweep_files_each_open_position_once (symbol : option string)
    (self : Binance World) (positions : list Position) (w : World) :
  futures_account client (world self) = (Ok positions, w) ->
  match fst (close_futures_positions client symbol quantity quantity_type percentage self) with
  | Ret (Some successful_closes, Some failed_closes, Some unclosable_positions) =>
      (List.length successful_closes + List.length failed_closes
       + List.length unclosable_positions)%nat
      = List.length (filter is_open (filter_symbol symbol positions))
  | Ret (None, None, None) => True
  | Ret _ => False
  | Raise e => forall str_e : string, e <> BinanceAPIException str_e
  end.
Proof.
  intro Hacc.
  unfold close_futures_positions, try_api, bind at 1, gateway. rewrite Hacc.
  unfold bind at 1.
  destruct (close_loop client (filter_symbol symbol positions) quantity quantity_type
              percentage ([], [], []) (after_call FuturesAccount w self))
    as [[[[s f] u] | e] self1] eqn:L.
  - apply close_loop_files_each_position in L. cbn [total_closes List.length] in L.
    destruct u as [| x u]; cbn [fst bind ret send_telegram_message]; unfold bind;
      cbn [fst]; exact L.
  - destruct e; cbn [fst]; try (intro; discriminate). exact I.
Qed.

Lemma close_loop_calls (positions : list Position) :
  forall (acc : closes) (self : Binance World),
  exists new : list call,
    calls (snd (close_loop client positions quantity quantity_type percentage acc self))
      = (calls self ++ new)%list /\
    Forall is_sweep_call new.
Proof.
  induction positions as [| position rest IH]; intros acc self.
  - exists []. cbn. rewrite app_nil_r. split; [reflexivity | constructor].
  - cbn [close_loop].
    destruct (Qeq_bool (positionAmt position) 0); [apply IH |].
    unfold bind at 1, gateway at 1.
    destruct (futures_mark_price client (pos_symbol position) (world self))
      as [[mark_price | str_e] w].
    2: { exists [FuturesMarkPrice (pos_symbol position)]. split; [reflexivity |].
         repeat constructor. }
    unfold bind at 1, lift at 1.
    destruct (close_quantity_of (positionAmt position) mark_price quantity quantity_type
                percentage) as [close_quantity | e].
    2: { exists [FuturesMarkPrice (pos_symbol position)]. split; [reflexivity |].
         repeat constructor. }
    unfold bind at 1.
    destruct (close_one_effect client (pos_symbol position)
                (closing_side (positionAmt position)) (positionAmt position)
                (Qabs (positionAmt position * mark_price)) close_quantity acc
                (after_call (FuturesMarkPrice (pos_symbol position)) w self))
      as [acc1 [self1 [E1 [C1 _]]]].
    rewrite E1.
    destruct (IH acc1 self1) as [new [Cn Fn]].
    exists (FuturesMarkPrice (pos_symbol position)
              :: FuturesCreateOrder
                   (close_params (pos_symbol position)
                      (closing_side (positionAmt position)) close_quantity)
              :: new).
    split.
    + rewrite Cn, C1. cbn [calls after_call]. rewrite <- !app_assoc. reflexivity.
    + constructor; [exact I |]. constructor; [| exact Fn].
      cbn. repeat split.
Qed.

(** X18: whatever the account holds and the gateway answers, the sweep only
    queries the account and mark prices and submits reduce-only market orders
    without price: it never places a spot order, never changes the leverage
    and never sends an order that could open or enlarge a position. *)
Theorem sweep_only_sends_reduce_only_orders (symbol : option string)
    (self : Binance World) :
  exists new : list call,
    calls (snd (close_futures_positions client symbol quantity quantity_type
                  percentage self)) = (calls self ++ new)%list /\
    Forall is_sweep_call new.
Proof.
  unfold close_futures_positions, try_api, bind at 1, gateway.
  destruct (futures_account client (world self)) as [[positions | str_e] w].
  2: { exists [FuturesAccount]. split; [reflexivity | repeat constructor]. }
  unfold bind at 1.
  destruct (close_loop_calls (filter_symbol symbol positions) ([], [], [])
              (after_call FuturesAccount w self)) as [new [Cn Fn]].
  exists (FuturesAccount :: new). split; [| constructor; [exact I | exact Fn]].
  destruct (close_loop client (filter_symbol symbol positions) quantity quantity_type
              percentage ([], [], []) (after_call FuturesAccount w self))
    as [[[[s f] u] | e] self1]; cbn [snd] in Cn.
  - destruct u as [| x u]; unfold bind, ret, send_telegram_message; cbn [snd calls after_send];
      rewrite Cn; cbn [calls after_call]; rewrite <- app_assoc; reflexivity.
  - destruct e; unfold bind, ret, send_telegram_message; cbn [snd calls after_send];
      rewrite Cn; cbn [calls after_call]; rewrite <- app_assoc; reflexivity.
Qed.

Lemma close_loop_on_flat_positions (positions : list Position) (acc : closes)
    (self : Binance World) :
  filter is_open positions = [] ->
  close_loop client positions quantity quantity_type percentage acc self = (Ret acc, self).
Proof.
  induction positions as [| position rest IH]; intro Hnone; [reflexivity |].
  cbn [filter close_loop] in *. unfold is_open in Hnone at 1.
  destruct (Qeq_bool (positionAmt position) 0); [| discriminate Hnone].
  apply IH. exact Hnone.
Qed.

(** X19: when the account holds no open position that passes the symbol
    filter, the sweep returns three empty lists after the account query alone:
    no mark price is asked for, no order is sent and nothing is notified. *)
Theorem sweep_without_open_positions (symbol : option string)
    (self : Binance World) (positions : list Position) (w : World) :
  futures_account client (world self) = (Ok positions, w) ->
  filter is_open (filter_symbol symbol positions) = [] ->
  close_futures_positions client symbol quantity quantity_type percentage self =
    (Ret (Some [], Some [], Some []), after_call FuturesAccount w self).
Proof.
  intros Hacc Hnone.
  unfold close_futures_positions, try_api, bind at 1, gateway. rewrite Hacc.
  unfold bind at 1.
  rewrite (close_loop_on_flat_positions _ _ _ Hnone). reflexivity.
Qed.

End SweepOutcomes.

Lemma sweep_files_each_open_position_once_witness :
  match fst (close_futures_positions (TestDouble.client TestDouble.exchange)
               (Some "ethusdt") None "CONTRACTS" None (init tt)) with
  | Ret (Some successful_closes, Some failed_closes, Some unclosable_positions) =>
      (List.length successful_closes + List.length failed_closes
       + List.length unclosable_positions)%nat
      = List.length (filter is_open
                       (filter_symbol (Some "ethusdt") TestDouble.three_positions))
  | Ret (None, None, None) => True
  | Ret _ => False
  | Raise e => forall str_e : string, e <> BinanceAPIException str_e
  end.
Proof.
  apply (sweep_files_each_open_position_once (TestDouble.client TestDouble.exchange)
           None "CONTRACTS" None (Some "ethusdt") (init tt) TestDouble.three_positions tt).
  reflexivity.
Defined.

Lemma sweep_without_open_positions_witness :
  close_futures_positions (TestDouble.client TestDouble.exchange)
    (Some "dogeusdt") (Some 3) "USD" (Some 50) (init tt) =
  (Ret (Some [], Some [], Some []), after_call FuturesAccount tt (init tt)).
Proof.
  apply (sweep_without_open_positions (TestDouble.client TestDouble.exchange)
           (Some 3) "USD" (Some 50) (Some "dogeusdt") (init tt)
           TestDouble.three_positions tt); reflexivity.
Defined.

Section SweepSteps.

Context {World : Type} (client : Client World).

Lemma closing_side_of_long (position_amt : Q) :
  0 < position_amt -> closing_side position_amt = "SELL"%string.
Proof.
  intro P. unfold closing_side, Qlt_bool.
  destruct (Qle_bool position_amt 0) eqn:E; [| reflexivity].
  apply Qle_bool_iff in E. exfalso. exact (Qlt_irrefl 0 (Qlt_le_trans _ _ _ P E)).
Qed.

Lemma closing_side_of_short (position_amt : Q) :
  position_amt < 0 -> closing_side position_amt = "BUY"%string.
Proof.
  intro N. unfold closing_side, Qlt_bool.
  assert (E : Qle_bool position_amt 0 = true).
  { apply Qle_bool_iff. apply Qlt_le_weak. exact N. }
  rewrite E. reflexivity.
Qed.

(** X20: when the gateway accepts the close order of an open position, the
    confirmation is appended to the successful closes, the two other lists are
    untouched, and the sweep goes on with the remaining positions.  The order
    is a reduce-only market order on the side opposite to the position: SELL
    for a positive amount, BUY for a negative one. *)
Theorem accepted_close_is_recorded (position : Position) (rest : list Position)
    (quantity : option Q) (quantity_type : string) (percentage : option Q)
    (s : list json) (f : list failed_close) (u : list unclosable)
    (self : Binance World) (mark_price close_quantity : Q) (w1 w2 : World)
    (order : json) :
  ~ positionAmt position == 0 ->
  futures_mark_price client (pos_symbol position) (world self) = (Ok mark_price, w1) ->
  close_quantity_of (positionAmt position) mark_price quantity quantity_type percentage
    = Ret close_quantity ->
  futures_create_order client
    (close_params (pos_symbol position) (closing_side (positionAmt position)) close_quantity)
    w1 = (Ok order, w2) ->
  close_loop client (position :: rest) quantity quantity_type percentage (s, f, u) self =
    close_loop client rest quantity quantity_type percentage
      ((s ++ [order])%list, f, u)
      (after_send
         (closed_message (pos_symbol position) (Qabs (positionAmt position * mark_price))
            order)
         (after_call
            (FuturesCreateOrder
               {| p_symbol := pos_symbol position;
                  p_side := if Qlt_bool 0 (positionAmt position) then "SELL" else "BUY";
                  p_type := "MARKET"; p_quantity := close_quantity;
                  p_price := None; p_timeInForce := None; p_reduceOnly := Some true |})
            w2
            (warned (pos_symbol position) (positionAmt position) close_quantity
               (after_call (FuturesMarkPrice (pos_symbol position)) w1 self)))) /\
  (0 < positionAmt position ->
   closing_side (positionAmt position) = "SELL"%string) /\
  (positionAmt position < 0 ->
   closing_side (positionAmt position) = "BUY"%string).
Proof.
  intros Hamt Hmark Hq Hok. split; [| split].
  - rewrite (close_loop_step client position rest quantity quantity_type percentage
               (s, f, u) self mark_price close_quantity w1 Hamt Hmark Hq).
    unfold bind.
    rewrite (close_one_accepted client _ _ _ _ _ s f u _ order w2); [| exact Hok].
    reflexivity.
  - apply closing_side_of_long.
  - apply closing_side_of_short.
Qed.

(** X21: a fixed quantity in contracts larger than the open position is not
    clamped: the close order is sent with the quantity as given, and the only
    trace of the excess is one line printed before the order is sent. *)
Theorem over_close_is_sent_unclamped (position : Position) (rest : list Position)
    (q : Q) (quantity_type : string) (percentage : option Q)
    (acc : closes) (self : Binance World) (mark_price : Q) (w1 : World) :
  ~ positionAmt position == 0 ->
  futures_mark_price client (pos_symbol position) (world self) = (Ok mark_price, w1) ->
  PyFloat.truthy_opt percentage = false ->
  PyStr.upper quantity_type <> "USD"%string ->
  Qabs (positionAmt position) < q ->
  exists (acc' : closes) (self1 : Binance World),
    close_loop client (position :: rest) (Some q) quantity_type percentage acc self =
      close_loop client rest (Some q) quantity_type percentage acc' self1 /\
    calls self1 =
      (calls self ++
         [FuturesMarkPrice (pos_symbol position);
          FuturesCreateOrder
            (close_params (pos_symbol position) (closing_side (positionAmt position)) q)])%list /\
    stdout self1 =
      (stdout self ++
         [("Close quantity exceeds open position size for " ++ pos_symbol position ++ ".")%string])%list.
Proof.
  intros Hamt Hmark Hpct Hqt Hover.
  assert (Hq0 : PyFloat.truthy q = true).
  { unfold PyFloat.truthy. apply negb_true_iff.
    destruct (Qeq_bool q 0) eqn:E; [| reflexivity].
    apply Qeq_bool_iff in E. rewrite E in Hover.
    exfalso. exact (Qlt_irrefl 0 (Qle_lt_trans _ _ _ (Qabs_nonneg _) Hover)). }
  assert (Hcq : close_quantity_of (positionAmt position) mark_price (Some q)
                  quantity_type percentage = Ret q).
  { unfold close_quantity_of. rewrite Hpct. apply String.eqb_neq in Hqt.
    rewrite Hqt. cbn [andb PyFloat.truthy_opt PyFloat.value]. rewrite Hq0. reflexivity. }
  assert (Hw : Qlt_bool (Qabs (positionAmt position)) q = true).
  { unfold Qlt_bool. apply negb_true_iff.
    destruct (Qle_bool q (Qabs (positionAmt position))) eqn:E; [| reflexivity].
    apply Qle_bool_iff in E. exfalso. exact (Qlt_irrefl _ (Qlt_le_trans _ _ _ Hover E)). }
  rewrite (close_loop_step client position rest (Some q) quantity_type percentage
             acc self mark_price q w1 Hamt Hmark Hcq).
  unfold bind.
  destruct (futures_create_order client
              (close_params (pos_symbol position) (closing_side (positionAmt position)) q)
              w1) as [[order | str_e] w2] eqn:H.
  - destruct acc as [[s f] u].
    rewrite (close_one_accepted client _ _ _ _ _ s f u _ order w2); [| exact H].
    do 2 eexists. split; [reflexivity |].
    unfold warned. rewrite Hw.
    cbn [calls stdout after_send after_call after_print].
    rewrite <- app_assoc. split; reflexivity.
  - rewrite (close_one_rejected client _ _ _ _ _ acc _ str_e w2); [| exact H].
    do 2 eexists. split; [reflexivity |].
    unfold warned. rewrite Hw.
    cbn [calls stdout after_send after_call after_print].
    rewrite <- app_assoc. split; reflexivity.
Qed.

End SweepSteps.

Lemma accepted_close_is_recorded_witness :
  close_loop (TestDouble.client TestDouble.exchange)
    [{| pos_symbol := "ADAUSDT"; positionAmt := -100 |}]
    None "CONTRACTS" (Some 50) ([], [], []) (init tt) =
  close_loop (TestDouble.client TestDouble.exchange) []
    None "CONTRACTS" (Some 50)
    (([] ++ [TestDouble.confirmation (close_params "ADAUSDT" "BUY" (Qabs (-100) * (50 / 100)))])%list,
     [], [])
    (after_send
       (closed_message "ADAUSDT" (Qabs (-100 * (2 # 5)))
          (TestDouble.confirmation (close_params "ADAUSDT" "BUY" (Qabs (-100) * (50 / 100)))))
       (after_call
          (FuturesCreateOrder
             {| p_symbol := "ADAUSDT";
                p_side := if Qlt_bool 0 (-100) then "SELL" else "BUY";
                p_type := "MARKET"; p_quantity := Qabs (-100) * (50 / 100);
                p_price := None; p_timeInForce := None; p_reduceOnly := Some true |})
          tt
          (warned "ADAUSDT" (-100) (Qabs (-100) * (50 / 100))
             (after_call (FuturesMarkPrice "ADAUSDT") tt (init tt))))) /\
  (0 < -100 -> closing_side (-100) = "SELL"%string) /\
  (-100 < 0 -> closing_side (-100) = "BUY"%string).
Proof.
  apply (accepted_close_is_recorded (TestDouble.client TestDouble.exchange)
           {| pos_symbol := "ADAUSDT"; positionAmt := -100 |} []
           None "CONTRACTS" (Some 50) [] [] [] (init tt) (2 # 5)
           (Qabs (-100) * (50 / 100)) tt tt
           (TestDouble.confirmation
              (close_params "ADAUSDT" "BUY" (Qabs (-100) * (50 / 100))))).
  - discriminate.
  - reflexivity.
  - reflexivity.
  - reflexivity.
Defined.

Lemma over_close_is_sent_unclamped_witness :
  exists (acc' : closes) (self1 : Binance unit),
    close_loop (TestDouble.client TestDouble.exchange)
      [{| pos_symbol := "BTCUSDT"; positionAmt := 1 # 2 |}]
      (Some 2) "contracts" None ([], [], []) (init tt) =
      close_loop (TestDouble.client TestDouble.exchange) []
        (Some 2) "contracts" None acc' self1 /\
    calls self1 =
      (calls (init tt) ++
         [FuturesMarkPrice "BTCUSDT";
          FuturesCreateOrder (close_params "BTCUSDT" (closing_side (1 # 2)) 2)])%list /\
    stdout self1 =
      (stdout (init tt) ++
         [("Close quantity exceeds open position size for " ++ "BTCUSDT" ++ ".")%string])%list.
Proof.
  apply (over_close_is_sent_unclamped (TestDouble.client TestDouble.exchange)
           {| pos_symbol := "BTCUSDT"; positionAmt := 1 # 2 |} [] 2 "contracts" None
           ([], [], []) (init tt) 60000 tt).
  - discriminate.
  - reflexivity.
  - reflexivity.
  - discriminate.
  - reflexivity.
Defined.

(** ** The test [in] on the error text (line 260) *)

Lemma prefix_iff_starts_with (needle : string) :
  forall hay : string,
    String.prefix needle hay = true <-> exists rest : string, hay = (needle ++ rest)%string.
Proof.
  induction needle as [| c needle IH]; intro hay.
  - split; [intros _; exists hay; reflexivity |].
    intros _. destruct hay; reflexivity.
  - destruct hay as [| d hay]; cbn [String.prefix].
    + split; [discriminate | intros [rest H]; discriminate H].
    + destruct (ascii_dec c d) as [-> | N].
      * rewrite IH. split; intros [rest H]; exists rest.
        -- cbn. rewrite H. reflexivity.
        -- cbn in H. injection H as H. exact H.
      * split; [discriminate |]. intros [rest H]. cbn in H. injection H as H _.
        congruence.
Qed.

(** [needle in hay] holds exactly when [hay] is some text, then [needle], then
    some text. *)
Lemma contains_iff_occurs (needle hay : string) :
  PyStr.contains needle hay = true <->
  exists before after : string, hay = (before ++ needle ++ after)%string.
Proof.
  induction hay as [| c hay IH].
  - cbn [PyStr.contains]. destruct (String.prefix needle "") eqn:P.
    + split; [| reflexivity]. intros _.
      apply prefix_iff_starts_with in P. destruct P as [rest P].
      exists ""%string, rest. exact P.
    + split; [discriminate |]. intros [before [after H]].
      destruct before as [| b before]; [| discriminate H].
      cbn in H. assert (String.prefix needle "" = true) as P'.
      { apply prefix_iff_starts_with. exists after. exact H. }
      congruence.
  - cbn [PyStr.contains]. destruct (String.prefix needle (String c hay)) eqn:P.
    + split; [| reflexivity]. intros _.
      apply prefix_iff_starts_with in P. destruct P as [rest P].
      exists ""%string, rest. exact P.
    + rewrite IH. split.
      * intros [before [after H]]. exists (String c before), after.
        cbn. rewrite H. reflexivity.
      * intros [before [after H]]. destruct before as [| b before].
        -- cbn in H. assert (String.prefix needle (String c hay) = true) as P'.
           { apply prefix_iff_starts_with. exists after. exact H. }
           congruence.
        -- cbn in H. injection H as _ H. exists before, after. exact H.
Qed.

(** X22: the test that tells an unclosable position from a failed close is a
    plain substring test on the error text.  A rejected close order is filed
    as unclosable when the text is some prefix, then "notional must be no
    smaller than 5", then some suffix, whatever the error code; and it is
    filed as failed, with the text, when the phrase occurs nowhere in it. *)
Theorem unclosable_iff_phrase_occurs {World : Type} (client : Client World)
    (symbol side : string) (position_amt notional_value close_quantity : Q)
    (s : list json) (f : list failed_close) (u : list unclosable)
    (self : Binance World) (str_e : string) (w : World) :
  futures_create_order client (close_params symbol side close_quantity) (world self)
    = (ApiError str_e, w) ->
  ((exists before after : string,
      str_e = (before ++ "notional must be no smaller than 5" ++ after)%string) ->
   fst (close_one client symbol side position_amt notional_value close_quantity
          (s, f, u) self) =
     Ret (s, f,
          (u ++ [{| u_symbol := symbol; u_notional := notional_value;
                    u_error := "Notional value too small to close." |}])%list)) /\
  (~ (exists before after : string,
        str_e = (before ++ "notional must be no smaller than 5" ++ after)%string) ->
   fst (close_one client symbol side position_amt notional_value close_quantity
          (s, f, u) self) =
     Ret (s, (f ++ [{| fc_symbol := symbol; fc_error := str_e |}])%list, u)).
Proof.
  intro H.
  rewrite (close_one_rejected client _ _ _ _ _ (s, f, u) self str_e w H).
  cbn [fst]. unfold classify.
  destruct (PyStr.contains "notional must be no smaller than 5" str_e) eqn:C.
  - split; [reflexivity |]. intro N. exfalso. apply N.
    apply contains_iff_occurs. exact C.
  - split; [| reflexivity]. intro O. apply contains_iff_occurs in O. congruence.
Qed.

Lemma unclosable_iff_phrase_occurs_witness :
  ((exists before after : string,
      TestDouble.too_small =
        (before ++ "notional must be no smaller than 5" ++ after)%string) ->
   fst (close_one (TestDouble.client TestDouble.exchange) "ETHUSDT" "SELL"
          (1 # 1000) 3 (1 # 1000) ([], [], []) (init tt)) =
     Ret ([], [],
          ([] ++ [{| u_symbol := "ETHUSDT"; u_notional := 3;
                     u_error := "Notional value too small to close." |}])%list)) /\
  (~ (exists before after : string,
        TestDouble.too_small =
          (before ++ "notional must be no smaller than 5" ++ after)%string) ->
   fst (close_one (TestDouble.client TestDouble.exchange) "ETHUSDT" "SELL"
          (1 # 1000) 3 (1 # 1000) ([], [], []) (init tt)) =
     Ret ([], ([] ++ [{| fc_symbol := "ETHUSDT"; fc_error := TestDouble.too_small |}])%list,
          [])).
Proof.
  apply (unclosable_iff_phrase_occurs (TestDouble.client TestDouble.exchange)
           "ETHUSDT" "SELL" (1 # 1000) 3 (1 # 1000) [] [] [] (init tt)
           TestDouble.too_small tt).
  reflexivity.
Defined.

(** ** The view of the open positions (lines 288-348) *)

Section ViewFacts.

Context {World : Type} (client : Client World).

Variable futures_account_details : World -> reply (list PositionDetail) * World.



(** The loop only asks for mark prices, and can only fail with a gateway
    error. *)
Lemma view_loop_effect (positions : list PositionDetail) :
  forall (position_data : list PositionRow) (self : Binance World),
    (exists new : list call,
       calls (snd (view_loop client positions position_data self)) = (calls self ++ new)%list /\
       Forall is_query new) /\
    successful_orders (snd (view_loop client positions position_data self))
      = successful_orders self /\
    failed_orders (snd (view_loop client positions position_data self))
      = failed_orders self /\
    telegram (snd (view_loop client positions position_data self)) = telegram self /\
    (forall e : exn,
       fst (view_loop client positions position_data self) = Raise e ->
       exists str_e : string, e = BinanceAPIException str_e).
Proof.
  induction positions as [| position rest IH]; intros position_data self.
  - cbn. split; [exists []; rewrite app_nil_r; split; [reflexivity | constructor] |].
    repeat split. discriminate.
  - cbn [view_loop].
    destruct (negb (Qeq_bool (d_positionAmt position) 0)); [| apply IH].
    unfold bind at 1 2 3 4 5, gateway.
    destruct (futures_mark_price client (d_symbol position) (world self))
      as [[mark_price | str_e] w].
    + destruct (IH (position_data ++ [position_row position mark_price])%list
                  (after_call (FuturesMarkPrice (d_symbol position)) w self))
        as [[new [C F]] [S [Fl [T R]]]].
      split; [| repeat split; assumption].
      exists (FuturesMarkPrice (d_symbol position) :: new). split.
      * rewrite C. cbn [calls after_call]. rewrite <- app_assoc. reflexivity.
      * constructor; [exact I | exact F].
    + cbn [fst snd]. split.
      * exists [FuturesMarkPrice (d_symbol position)].
        split; [reflexivity | repeat constructor].
      * repeat split. intros e [= <-]. exists str_e. reflexivity.
Qed.

(** The view, by the answers of the gateway. *)
Lemma view_cases (t : Terminal) :
  view_open_futures_positions client futures_account_details t =
    match futures_account_details (world (instance t)) with
    | (ApiError str_e, w) =>
        (Ret {| columns := []; rows := [] |},
         {| instance := after_call FuturesAccount w (instance t);
            notices := (notices t ++
                          [("Failed to fetch open futures positions: " ++ str_e)%string])%list |})
    | (Ok positions, w) =>
        match view_loop client positions [] (after_call FuturesAccount w (instance t)) with
        | (Ret position_data, self1) =>
            (Ret {| columns := position_columns; rows := position_data |},
             {| instance := self1; notices := notices t |})
        | (Raise (BinanceAPIException str_e), self1) =>
            (Ret {| columns := []; rows := [] |},
             {| instance := self1;
                notices := (notices t ++
                              [("Failed to fetch open futures positions: " ++ str_e)%string])%list |})
        | (Raise e, self1) => (Raise e, {| instance := self1; notices := notices t |})
        end
    end.
Proof.
  unfold view_open_futures_positions, view_body, bind at 1, gateway.
  destruct (futures_account_details (world (instance t))) as [[positions | str_e] w];
    [| reflexivity].
  unfold bind at 1.
  destruct (view_loop client positions [] (after_call FuturesAccount w (instance t)))
    as [[[| row more] | e] self1]; reflexivity.
Qed.


(** X24: the view only reads.  Whatever the gateway answers it returns a
    frame and never raises; it makes no call but account and mark-price
    queries, so no order is ever submitted; and it leaves both accumulators of
    the instance as they were. *)
Theorem view_is_read_only (t : Terminal) :
  (exists frame : DataFrame,
     fst (view_open_futures_positions client futures_account_details t) = Ret frame) /\
  (exists new : list call,
     calls (instance (snd (view_open_futures_positions client futures_account_details t)))
       = (calls (instance t) ++ new)%list /\
     Forall is_query new) /\
  successful_orders
    (instance (snd (view_open_futures_positions client futures_account_details t)))
    = successful_orders (instance t) /\
  failed_orders
    (instance (snd (view_open_futures_positions client futures_account_details t)))
    = failed_orders (instance t).
Proof.
  rewrite view_cases.
  destruct (futures_account_details (world (instance t))) as [[positions | str_e] w].
  2: { cbn [fst snd instance]. split; [eexists; reflexivity |]. split.
       - exists [FuturesAccount]. split; [reflexivity | repeat constructor].
       - split; reflexivity. }
  destruct (view_loop_effect positions [] (after_call FuturesAccount w (instance t)))
    as [[new [C F]] [S [Fl [_ R]]]].
  destruct (view_loop client positions [] (after_call FuturesAccount w (instance t)))
    as [[position_data | e] self1]; cbn [fst snd] in C, S, Fl, R.
  - cbn [fst snd instance]. split; [eexists; reflexivity |].
    split; [| split; assumption].
    exists (FuturesAccount :: new).
    split; [rewrite C; cbn [calls after_call]; rewrite <- app_assoc; reflexivity
           | constructor; [exact I | exact F]].
  - destruct (R e eq_refl) as [str_e ->].
    cbn [fst snd instance]. split; [eexists; reflexivity |].
    split; [| split; assumption].
    exists (FuturesAccount :: new).
    split; [rewrite C; cbn [calls after_call]; rewrite <- app_assoc; reflexivity
           | constructor; [exact I | exact F]].
Qed.

(** X25: an account without open position and a failed account query give
    different frames.  The first gives the table with its eight columns and
    no row, after the account query alone and without notice; the second
    gives a frame without any column, and a notice with the error text. *)
Theorem view_of_nothing_and_view_of_failure (t : Terminal) :
  (forall (positions : list PositionDetail) (w : World),
     futures_account_details (world (instance t)) = (Ok positions, w) ->
     filter is_open_detail positions = [] ->
     view_open_futures_positions client futures_account_details t =
       (Ret {| columns := position_columns; rows := [] |},
        {| instance := after_call FuturesAccount w (instance t);
           notices := notices t |})) /\
  (forall (str_e : string) (w : World),
     futures_account_details (world (instance t)) = (ApiError str_e, w) ->
     view_open_futures_positions client futures_account_details t =
       (Ret {| columns := []; rows := [] |},
        {| instance := after_call FuturesAccount w (instance t);
           notices := (notices t ++
                         [("Failed to fetch open futures positions: " ++ str_e)%string])%list |})).
Proof.
  split.
  - intros positions w Hacc Hnone. rewrite view_cases, Hacc.
    assert (L : forall (ps : list PositionDetail) (acc : list PositionRow)
                  (self : Binance World),
               filter is_open_detail ps = [] ->
               view_loop client ps acc self = (Ret acc, self)).
    { induction ps as [| p ps IH]; intros acc self Hf; [reflexivity |].
      cbn [filter view_loop] in *. unfold is_open_detail in Hf at 1.
      destruct (negb (Qeq_bool (d_positionAmt p) 0)); [discriminate Hf |].
      apply IH. exact Hf. }
    rewrite (L positions [] _ Hnone). reflexivity.
  - intros str_e w Hacc. rewrite view_cases, Hacc. reflexivity.
Qed.

End ViewFacts.


(** The view of the test account: two rows, the flat position left out. *)
Example view_of_test_account :
  fst (view_open_futures_positions (TestDouble.client TestDouble.exchange)
         TestDoubleMore.account_details {| instance := init tt; notices := [] |}) =
  Ret {| columns := position_columns;
         rows :=
           [ {| row_Symbol := "BTCUSDT"; row_SizeContracts := 1 # 2;
                row_SizeUSD := Qabs ((1 # 2) * 60000); row_EntryPrice := 58000;
                row_MarkPrice := 60000; row_PNL := 1000;
                row_LiquidationPrice := Some 52500; row_Leverage := 10 |};
             {| row_Symbol := "ADAUSDT"; row_SizeContracts := -100;
                row_SizeUSD := Qabs (-100 * (2 # 5)); row_EntryPrice := 1 # 2;
                row_MarkPrice := 2 # 5; row_PNL := 10;
                row_LiquidationPrice := None; row_Leverage := 5 |} ] |}.
Proof. reflexivity. Qed.

(** A mark price refused on the second position: the row of the first is lost. *)
Example view_with_unquoted_position :
  view_open_futures_positions (TestDouble.client TestDouble.exchange)
    TestDoubleMore.account_details_unquoted {| instance := init tt; notices := [] |} =
  (Ret {| columns := []; rows := [] |},
   {| instance :=
        after_call (FuturesMarkPrice "XYZUSDT") tt
          (after_call (FuturesMarkPrice "BTCUSDT") tt
             (after_call FuturesAccount tt (init tt)));
      notices :=
        ["Failed to fetch open futures positions: APIError(code=-1121): Invalid symbol."] |}).
Proof. reflexivity. Qed.

Lemma view_of_nothing_and_view_of_failure_witness :
  view_open_futures_positions (TestDouble.client TestDouble.exchange)
    TestDoubleMore.account_details_flat {| instance := init tt; notices := [] |} =
    (Ret {| columns := position_columns; rows := [] |},
     {| instance := after_call FuturesAccount tt (init tt); notices := [] |}) /\
  view_open_futures_positions (TestDouble.client TestDouble.exchange)
    TestDoubleMore.account_details_down {| instance := init tt; notices := [] |} =
    (Ret {| columns := []; rows := [] |},
     {| instance := after_call FuturesAccount tt (init tt);
        notices :=
          ([] ++ [("Failed to fetch open futures positions: "
                   ++ "APIError(code=-1001): Internal error; unable to process your request.")%string])%list |}).
Proof.
  split.
  - apply (proj1 (view_of_nothing_and_view_of_failure
                    (TestDouble.client TestDouble.exchange)
                    TestDoubleMore.account_details_flat
                    {| instance := init tt; notices := [] |})
             [ {| d_symbol := "SOLUSDT"; d_positionAmt := 0; d_entryPrice := 0;
                  d_leverage := 20; d_unrealizedProfit := 0;
                  d_liquidationPrice := None |} ] tt); reflexivity.
  - apply (proj2 (view_of_nothing_and_view_of_failure
                    (TestDouble.client TestDouble.exchange)
                    TestDoubleMore.account_details_down
                    {| instance := init tt; notices := [] |})
             "APIError(code=-1001): Internal error; unable to process your request." tt).
    reflexivity.
Defined.

(** ** Further facts on the sweep *)

Section SweepSymbol.

Context {World : Type} (client : Client World).

Variables (quantity : option Q) (quantity_type : string) (percentage : option Q).

Lemma close_loop_calls_on_symbol (symbol : string) (positions : list Position) :
  Forall (fun position => pos_symbol position = symbol) positions ->
  forall (acc : closes) (self : Binance World),
  exists new : list call,
    calls (snd (close_loop client positions quantity quantity_type percentage acc self))
      = (calls self ++ new)%list /\
    Forall (concerns symbol) new.
Proof.
  induction positions as [| position rest IH]; intros Hall acc self.
  - exists []. cbn. rewrite app_nil_r. split; [reflexivity | constructor].
  - inversion Hall as [| p ps Hp Hrest]; subst.
    cbn [close_loop].
    destruct (Qeq_bool (positionAmt position) 0); [apply (IH Hrest) |].
    unfold bind at 1, gateway at 1.
    destruct (futures_mark_price client (pos_symbol position) (world self))
      as [[mark_price | str_e] w].
    2: { exists [FuturesMarkPrice (pos_symbol position)]. split; [reflexivity |].
         repeat constructor. }
    unfold bind at 1, lift at 1.
    destruct (close_quantity_of (positionAmt position) mark_price quantity quantity_type
                percentage) as [close_quantity | e].
    2: { exists [FuturesMarkPrice (pos_symbol position)]. split; [reflexivity |].
         repeat constructor. }
    unfold bind at 1.
    destruct (close_one_effect client (pos_symbol position)
                (closing_side (positionAmt position)) (positionAmt position)
                (Qabs (positionAmt position * mark_price)) close_quantity acc
                (after_call (FuturesMarkPrice (pos_symbol position)) w self))
      as [acc1 [self1 [E1 [C1 _]]]].
    rewrite E1.
    destruct (IH Hrest acc1 self1) as [new [Cn Fn]].
    exists (FuturesMarkPrice (pos_symbol position)
              :: FuturesCreateOrder
                   (close_params (pos_symbol position)
                      (closing_side (positionAmt position)) close_quantity)
              :: new).
    split.
    + rewrite Cn, C1. cbn [calls after_call]. rewrite <- !app_assoc. reflexivity.
    + constructor; [reflexivity |]. constructor; [reflexivity | exact Fn].
Qed.

(** X26: a sweep asked for one symbol leaves the other instruments alone:
    after the account query, every mark-price query and every order it sends
    is on that symbol, in upper case. *)
Theorem sweep_of_a_symbol_touches_no_other (symbol : string) (self : Binance World) :
  symbol <> ""%string ->
  exists new : list call,
    calls (snd (close_futures_positions client (Some symbol) quantity quantity_type
                  percentage self)) = (calls self ++ FuturesAccount :: new)%list /\
    Forall (concerns (PyStr.upper symbol)) new.
Proof.
  intro Hs.
  unfold close_futures_positions, try_api, bind at 1, gateway.
  destruct (futures_account client (world self)) as [[positions | str_e] w].
  2: { exists []. split; [reflexivity | constructor]. }
  unfold bind at 1.
  assert (Hall : Forall (fun position => pos_symbol position = PyStr.upper symbol)
                   (filter_symbol (Some symbol) positions)).
  { destruct symbol as [| c symbol]; [contradiction |]. cbn [filter_symbol].
    apply Forall_forall. intros position Hin. apply filter_In in Hin.
    destruct Hin as [_ E]. apply String.eqb_eq in E. exact E. }
  destruct (close_loop_calls_on_symbol (PyStr.upper symbol)
              (filter_symbol (Some symbol) positions) Hall ([], [], [])
              (after_call FuturesAccount w self)) as [new [Cn Fn]].
  exists new. split; [| exact Fn].
  destruct (close_loop client (filter_symbol (Some symbol) positions) quantity
              quantity_type percentage ([], [], []) (after_call FuturesAccount w self))
    as [[[[s f] u] | e] self1]; cbn [snd] in Cn.
  - destruct u as [| x u]; unfold bind, ret, send_telegram_message; cbn [snd calls after_send];
      rewrite Cn; cbn [calls after_call]; rewrite <- app_assoc; reflexivity.
  - destruct e; unfold bind, ret, send_telegram_message; cbn [snd calls after_send];
      rewrite Cn; cbn [calls after_call]; rewrite <- app_assoc; reflexivity.
Qed.

(** X27: the test [notional_value < 5] changes nothing in what is sent:
    whatever two notional values [small] and [large] are, below the threshold
    or not, the position is closed by the same single reduce-only order, with
    the same effect on the exchange. *)
Theorem small_positions_are_closed_like_others (symbol side : string)
    (position_amt close_quantity small large : Q) (acc : closes) (self : Binance World) :
  calls (snd (close_one client symbol side position_amt small close_quantity acc self)) =
    (calls self ++ [FuturesCreateOrder (close_params symbol side close_quantity)])%list /\
  calls (snd (close_one client symbol side position_amt large close_quantity acc self)) =
    (calls self ++ [FuturesCreateOrder (close_params symbol side close_quantity)])%list /\
  world (snd (close_one client symbol side position_amt small close_quantity acc self)) =
    world (snd (close_one client symbol side position_amt large close_quantity acc self)).
Proof.
  destruct (futures_create_order client (close_params symbol side close_quantity)
              (world self)) as [[order | str_e] w] eqn:H.
  - destruct acc as [[s f] u].
    rewrite !(close_one_accepted client _ _ _ _ _ s f u self order w H).
    cbn [snd calls world after_send after_call]. rewrite calls_warned.
    repeat split.
  - rewrite !(close_one_rejected client _ _ _ _ _ acc self str_e w H).
    cbn [snd calls world after_send after_call]. rewrite calls_warned.
    repeat split.
Qed.

End SweepSymbol.

Lemma sweep_of_a_symbol_touches_no_other_witness :
  exists new : list call,
    calls (snd (close_futures_positions (TestDouble.client TestDouble.exchange)
                  (Some "adausdt") None "CONTRACTS" None (init tt)))
      = (calls (init tt) ++ FuturesAccount :: new)%list /\
    Forall (concerns (PyStr.upper "adausdt")) new.
Proof.
  apply (sweep_of_a_symbol_touches_no_other (TestDouble.client TestDouble.exchange)).
  discriminate.
Defined.

(** X28: a percentage above 0 and at most 100 never closes more than the
    position: the close quantity, whatever the mark price and whatever
    quantity comes with it, lies between zero and the size of the position. *)
Theorem percentage_close_stays_within_position (a m p : Q) (quantity : option Q)
    (quantity_type : string) :
  0 < p -> p <= 100 ->
  exists r : Q,
    close_quantity_of a m quantity quantity_type (Some p) = Ret r /\
    0 <= r /\ r <= Qabs a.
Proof.
  intros Hp Hle.
  assert (T : PyFloat.truthy p = true).
  { unfold PyFloat.truthy. apply negb_true_iff.
    destruct (Qeq_bool p 0) eqn:E; [| reflexivity].
    apply Qeq_bool_iff in E. rewrite E in Hp. discriminate Hp. }
  exists (Qabs a * (p / 100)). split; [| split].
  - unfold close_quantity_of. cbn [PyFloat.truthy_opt PyFloat.value]. rewrite T.
    reflexivity.
  - apply Qmult_le_0_compat; [apply Qabs_nonneg |].
    apply Qle_shift_div_l; [reflexivity |]. rewrite Qmult_0_l.
    apply Qlt_le_weak. exact Hp.
  - apply Qle_trans with (Qabs a * 1); [| rewrite Qmult_1_r; apply Qle_refl].
    rewrite !(Qmult_comm (Qabs a)).
    apply Qmult_le_compat_r; [| apply Qabs_nonneg].
    apply Qle_shift_div_r; [reflexivity |]. rewrite Qmult_1_l. exact Hle.
Qed.

Lemma percentage_close_stays_within_position_witness :
  exists r : Q,
    close_quantity_of (-10) 50000 (Some 3) "USD" (Some 50) = Ret r /\
    0 <= r /\ r <= Qabs (-10).
Proof.
  apply percentage_close_stays_within_position; [reflexivity | discriminate].
Defined.

(** ** Upper-casing of symbol, side and order type (lines 82 and 99-103) *)

Lemma upper_ascii_idempotent (c : ascii) :
  PyStr.upper_ascii (PyStr.upper_ascii c) = PyStr.upper_ascii c.
Proof.
  destruct c as [[] [] [] [] [] [] [] []]; reflexivity.
Qed.

Lemma upper_idempotent (s : string) : PyStr.upper (PyStr.upper s) = PyStr.upper s.
Proof.
  induction s as [| c s IH]; [reflexivity |].
  cbn [PyStr.upper]. rewrite upper_ascii_idempotent, IH. reflexivity.
Qed.

Lemma futures_params_upper (symbol side : string) (quantity : Q) (price : option Q)
    (order_type : string) :
  futures_params (PyStr.upper symbol) (PyStr.upper side) quantity price
    (PyStr.upper order_type) =
  futures_params symbol side quantity price order_type.
Proof. unfold futures_params. rewrite !upper_idempotent. reflexivity. Qed.

(** X29: for a quantity in contracts, the exchange cannot tell how the caller
    spelled the symbol, the side and the order type: passing them in upper
    case leads to the same gateway calls, leaves the exchange in the same state
    and records the same confirmations.  (The failure records and the
    notifications keep the caller's spelling.) *)
Theorem futures_order_ignores_case {World : Type} (client : Client World)
    (symbol side : string) (quantity : Q) (price : option Q)
    (order_type quantity_type : string) (self : Binance World) :
  PyStr.upper quantity_type <> "USD"%string ->
  calls (snd (place_futures_order client (PyStr.upper symbol) (PyStr.upper side)
                quantity price (PyStr.upper order_type) quantity_type self)) =
    calls (snd (place_futures_order client symbol side quantity price order_type
                  quantity_type self)) /\
  world (snd (place_futures_order client (PyStr.upper symbol) (PyStr.upper side)
                quantity price (PyStr.upper order_type) quantity_type self)) =
    world (snd (place_futures_order client symbol side quantity price order_type
                  quantity_type self)) /\
  successful_orders
    (snd (place_futures_order client (PyStr.upper symbol) (PyStr.upper side)
            quantity price (PyStr.upper order_type) quantity_type self)) =
    successful_orders
      (snd (place_futures_order client symbol side quantity price order_type
              quantity_type self)).
Proof.
  intro Hqt.
  destruct (futures_exchange_info client (world self)) as [[symbols | str_e] w] eqn:Hinfo.
  2: { rewrite !(place_futures_order_info_error client _ _ _ _ _ _ self str_e w Hinfo).
       repeat split. }
  destruct (find (fun i => (info_symbol i =? PyStr.upper symbol)%string) symbols)
    as [info |] eqn:Hfind.
  2: { rewrite (place_futures_order_unlisted client symbol _ _ _ _ _ self symbols w
                  Hinfo Hfind).
       rewrite (place_futures_order_unlisted client (PyStr.upper symbol) _ _ _ _ _ self
                  symbols w Hinfo); [repeat split |].
       rewrite upper_idempotent. exact Hfind. }
  rewrite (place_futures_order_contracts client symbol _ _ _ _ _ self symbols info w
             Hinfo Hfind Hqt).
  rewrite (place_futures_order_contracts client (PyStr.upper symbol) _ _ _ _ _ self
             symbols info w Hinfo); [| rewrite upper_idempotent; exact Hfind | exact Hqt].
  destruct (round_to_precision quantity (stepSize info)) as [quantity' | e];
    [| repeat split].
  destruct (round_price price (tickSize info)) as [price' | e]; [| repeat split].
  cbv zeta. rewrite futures_params_upper.
  destruct (futures_create_order client
              (futures_params symbol side quantity' price' order_type) w)
    as [[order | str_e] w']; repeat split.
Qed.

Lemma futures_order_ignores_case_witness :
  calls (snd (place_futures_order (TestDouble.client TestDouble.exchange)
                (PyStr.upper "btcusdt") (PyStr.upper "buy") (5 # 4) (Some 60000)
                (PyStr.upper "limit") "contracts" (init tt))) =
    calls (snd (place_futures_order (TestDouble.client TestDouble.exchange)
                  "btcusdt" "buy" (5 # 4) (Some 60000) "limit" "contracts" (init tt))) /\
  world (snd (place_futures_order (TestDouble.client TestDouble.exchange)
                (PyStr.upper "btcusdt") (PyStr.upper "buy") (5 # 4) (Some 60000)
                (PyStr.upper "limit") "contracts" (init tt))) =
    world (snd (place_futures_order (TestDouble.client TestDouble.exchange)
                  "btcusdt" "buy" (5 # 4) (Some 60000) "limit" "contracts" (init tt))) /\
  successful_orders
    (snd (place_futures_order (TestDouble.client TestDouble.exchange)
            (PyStr.upper "btcusdt") (PyStr.upper "buy") (5 # 4) (Some 60000)
            (PyStr.upper "limit") "contracts" (init tt))) =
    successful_orders
      (snd (place_futures_order (TestDouble.client TestDouble.exchange)
              "btcusdt" "buy" (5 # 4) (Some 60000) "limit" "contracts" (init tt))).
Proof.
  apply (futures_order_ignores_case (TestDouble.client TestDouble.exchange)).
  discriminate.
Defined.
